(** * The Metropolis-Hastings sampler of the 4M24 notebooks

    The notebooks define [MH] twice: once taking a frozen proposal
    distribution ([y = x + proposal_dist.rvs()]) and once taking the proposal
    standard deviation ([y = norm.rvs(loc=x, scale=proposal_std)]).  Both are
    embedded below as programs of a small state-and-exception monad over the
    state of the random generator.  Numbers are IEEE 754 binary64 values, as
    the [numpy.float64] scalars that scipy's [pdf] and [rvs] return. *)

From Stdlib Require Import Floats ZArith List Lia Bool.
From Stdlib Require String.
Import ListNotations.

Local Open Scope float_scope.

(** ** Python values and control *)

Module Py.

(** A raised exception: its class and its message. *)
Inductive exn : Type :=
| Exn (cls msg : String.string).

(** What a call yields: a value, or an exception on its way up. *)
Inductive result (A : Type) : Type :=
| Ok (a : A)
| Raise (e : exn).
Arguments Ok {A} a.
Arguments Raise {A} e.

(** The builtin [min(a, b)]: the first argument is kept unless the later
    one compares strictly below it. *)
Definition min (a b : float) : float := if b <? a then b else a.

(** [x != x], true of NaN only. *)
Definition isnan (x : float) : bool := negb (x =? x).

End Py.
Import Py.

(** ** Predicates on binary64 values *)

Module F64.

Definition is_positive (x : float) : Prop := (0 <? x) = true.
Definition is_finite (x : float) : Prop := (abs x <? infinity) = true.

(** A density value within the contract: finite and not below zero. *)
Definition is_density (x : float) : Prop := (0 <=? x) = true /\ is_finite x.

(** A number, zero or infinity whose sign bit is [s]. *)
Definition signed (s : bool) (v : spec_float) : Prop :=
  match v with
  | S754_zero s' | S754_infinity s' | S754_finite s' _ _ => s' = s
  | S754_nan => False
  end.

End F64.

(** ** The sampler *)

Section Sampler.

(** State of the random generator behind [scipy.stats]. *)
Context {rng : Type}.

(** A computation reads and advances the generator, and returns or raises.
    The generator keeps whatever was consumed before an exception. *)
Definition M (A : Type) : Type := rng -> result A * rng.

Definition ret {A : Type} (a : A) : M A := fun s => (Ok a, s).

Definition bind {A B : Type} (c : M A) (k : A -> M B) : M B :=
  fun s =>
    match c s with
    | (Ok a, s') => k a s'
    | (Raise e, s') => (Raise e, s')
    end.

(** A call that does not touch the generator but may raise. *)
Definition call {A : Type} (r : result A) : M A := fun s => (r, s).

(** A draw that cannot fail. *)
Definition draw {A : Type} (g : rng -> A * rng) : M A :=
  fun s => let (a, s') := g s in (Ok a, s').

Local Notation "x <- c ;; k" := (bind c (fun x => k))
  (at level 61, c at next level, right associativity).
Local Notation "' pat <- c ;; k" := (bind c (fun x => match x with pat => k end))
  (at level 61, pat pattern, c at next level, right associativity).

(** [for _ in range(n): st = body(st)]; an [n] below one runs nothing. *)
Fixpoint iterate {S : Type} (k : nat) (body : S -> M S) (st : S) : M S :=
  match k with
  | O => ret st
  | Datatypes.S k' => st' <- body st ;; iterate k' body st'
  end.

Definition for_range {S : Type} (n : Z) (body : S -> M S) (st : S) : M S :=
  iterate (Z.to_nat n) body st.

(** A frozen scipy distribution, as far as [MH] uses one: the target is
    asked for [pdf], the proposal for [rvs]. *)
Record rv_frozen : Type := {
  pdf : float -> result float;
  rvs : M float
}.

(** [scipy.stats.uniform.rvs()]. *)
Variable uniform_rvs : rng -> float * rng.

(** [scipy.stats.norm.rvs(loc=..., scale=...)]. *)
Variable norm_rvs : float -> float -> M float.

(** [MH(initial, target_dist, proposal_dist, n)], the notebook with a frozen
    proposal distribution. *)
Definition MH (initial : float) (target_dist proposal_dist : rv_frozen) (n : Z)
  : M (list float) :=
  let samples := [] in
  let x := initial in
  ' (x, samples) <- for_range n (fun '(x, samples) =>
      (* Sample from proposal, mean is the previous sample *)
      d <- rvs proposal_dist ;;
      let y := x + d in
      (* Sample from uniform on [0,1] *)
      u <- draw uniform_rvs ;;
      (* Calculate acceptance ratio *)
      py <- call (pdf target_dist y) ;;
      px <- call (pdf target_dist x) ;;
      let a := Py.min (py / px) 1 in
      (* Check if new sample is accepted *)
      if u <=? a then ret (y, samples ++ [y])
      else ret (x, samples ++ [x])) (x, samples) ;;
  ret samples.

(** [MH(initial, target_dist, proposal_std, n)], the notebook that passes the
    proposal's standard deviation. *)
Definition MH_std (initial : float) (target_dist : rv_frozen) (proposal_std : float)
  (n : Z) : M (list float) :=
  let samples := [] in
  let x := initial in
  ' (x, samples) <- for_range n (fun '(x, samples) =>
      y <- norm_rvs x proposal_std ;;
      u <- draw uniform_rvs ;;
      py <- call (pdf target_dist y) ;;
      px <- call (pdf target_dist x) ;;
      let a := Py.min (py / px) 1 in
      if u <=? a then ret (y, samples ++ [y])
      else ret (x, samples ++ [x])) (x, samples) ;;
  ret samples.

(** *** The loop of both notebooks *)

(** The two bodies differ in the proposal step only.  [iteration] is that
    body with the step left open, and [MH_with] the function around it;
    [MH_unfold] and [MH_std_unfold] below show each notebook to be an
    instance. *)
Definition iteration (propose : float -> M float) (target_dist : rv_frozen)
  (st : float * list float) : M (float * list float) :=
  let '(x, samples) := st in
  y <- propose x ;;
  u <- draw uniform_rvs ;;
  py <- call (pdf target_dist y) ;;
  px <- call (pdf target_dist x) ;;
  if u <=? Py.min (py / px) 1 then ret (y, samples ++ [y])
  else ret (x, samples ++ [x]).

Definition MH_with (propose : float -> M float) (initial : float)
  (target_dist : rv_frozen) (n : Z) : M (list float) :=
  st <- for_range n (iteration propose target_dist) (initial, []) ;;
  ret (snd st).

(** The proposal step of each notebook. *)
Definition offset_proposal (proposal_dist : rv_frozen) (x : float) : M float :=
  d <- rvs proposal_dist ;; ret (x + d).

Definition scaled_proposal (proposal_std : float) (x : float) : M float :=
  norm_rvs x proposal_std.

(** *** Vocabulary of the specification *)

(** The acceptance ratio as the specification writes it, [min(1, pi(y)/pi(x))]. *)
Definition acceptance_spec (py px : float) : float := Py.min 1 (py / px).

(** The chain state once [samples] have been produced from [initial]: the
    last sample, or [initial] while there is none. *)
Definition current (initial : float) (samples : list float) : float :=
  last samples initial.

(** The offsets and uniforms handed to [k] iterations, in the order the loop
    asks for them. *)
Fixpoint draws (proposal_dist : rv_frozen) (k : nat) : M (list (float * float)) :=
  match k with
  | O => ret []
  | Datatypes.S k' =>
      d <- rvs proposal_dist ;;
      u <- draw uniform_rvs ;;
      rest <- draws proposal_dist k' ;;
      ret ((d, u) :: rest)
  end.

(** Running sums [x + d1, x + d1 + d2, ...]. *)
Fixpoint partial_sums (x : float) (ds : list float) : list float :=
  match ds with
  | [] => []
  | d :: ds' => (x + d) :: partial_sums (x + d) ds'
  end.

End Sampler.

Arguments M rng A : clear implicits.
Arguments rv_frozen rng : clear implicits.

(** ** The rest of the notebooks *)

Module Builtins.

(** The builtin [sum(l)]: from the int [0], adding left to right. *)
Definition sum (l : list float) : float := fold_left PrimFloat.add l 0.

Import String.

(** What reading an unbound name raises. *)
Definition NameError_n : exn :=
  Exn "NameError"%string "name 'n' is not defined"%string.

End Builtins.

(** A trajectory that fits the draws: each sample is its predecessor or the
    predecessor plus the offset of its iteration. *)
Fixpoint walk (x : float) (l : list (float * float)) (samples : list float)
  : Prop :=
  match l, samples with
  | [], [] => True
  | (d, _) :: l', v :: samples' => (v = x \/ v = x + d) /\ walk v l' samples'
  | _, _ => False
  end.

Section FirstNotebook.

Context {rng : Type}.
Variable uniform_rvs : rng -> float * rng.

(** The global [n] of the notebook session, when one is bound. *)
Variable global_n : option Z.

Local Notation "x <- c ;; k" := (bind c (fun x => k))
  (at level 61, c at next level, right associativity).
Local Notation "' pat <- c ;; k" := (bind c (fun x => match x with pat => k end))
  (at level 61, pat pattern, c at next level, right associativity).

(** Reading [n] inside a function that has no local of that name. *)
Definition read_n : M rng Z :=
  match global_n with
  | Some n => ret n
  | None => call (Raise Builtins.NameError_n)
  end.

(** [MH(initial, target_dist, proposal_dist, N)] as the first notebook has
    it: the count is taken as [N], the loop runs over [range(n)]. *)
Definition MH_N (initial : float) (target_dist proposal_dist : rv_frozen rng)
  (N : Z) : M rng (list float) :=
  let samples := [] in
  let x := initial in
  n <- read_n ;;
  ' (x, samples) <- for_range n (fun '(x, samples) =>
      d <- rvs proposal_dist ;;
      let y := x + d in
      u <- draw uniform_rvs ;;
      py <- call (pdf target_dist y) ;;
      px <- call (pdf target_dist x) ;;
      let a := Py.min (py / px) 1 in
      if u <=? a then ret (y, samples ++ [y])
      else ret (x, samples ++ [x])) (x, samples) ;;
  ret samples.

End FirstNotebook.

Section Importance.

(** The threshold [mu], a global of the notebook. *)
Variable mu : float.

(** [scipy.stats.expon.pdf(x)] and [scipy.stats.norm.pdf(x, loc, scale)]. *)
Variable expon_pdf : float -> float.
Variable norm_pdf : float -> float -> float -> float.

(** [importance(x)] of the Lecture 2 notebook: the weight of a sample of the
    shifted normal under the exponential lifetime density. *)
Definition importance (x : float) : float :=
  if mu <=? x then expon_pdf x / norm_pdf x mu 1
  else 0.

(** [importance(x)] of the notebook's checkpoint, for a normal tail. *)
Definition importance_tail (x : float) : float :=
  if mu <=? x then norm_pdf x 0 1 / norm_pdf x mu 1
  else 0.

(** [sum([importance(x) for x in qx_samples])], in either notebook. *)
Definition weight_sum (qx_samples : list float) : float :=
  Builtins.sum (map importance qx_samples).

Definition weight_sum_tail (qx_samples : list float) : float :=
  Builtins.sum (map importance_tail qx_samples).

(** Both weights are a ratio [p(x)/q(x)] at or above the threshold. *)
Definition threshold_weight (p q : float -> float) (x : float) : float :=
  if mu <=? x then p x / q x else 0.

End Importance.

(** ** A scripted random source and some targets, to run the sampler on *)

Module Mock.
Import String.

(** The generator replays a tape of numbers, then hands out zeros. *)
Definition tape : Type := list float.

Definition next (s : tape) : float * tape :=
  match s with
  | [] => (0, [])
  | v :: s' => (v, s')
  end.

(** A distribution object with density [f] whose [rvs] reads the tape. *)
Definition dist (f : float -> result float) : rv_frozen tape :=
  {| pdf := f; rvs := draw next |}.

Definition scripted : rv_frozen tape := dist (fun _ => Ok 1).

Definition domain_error : exn :=
  Exn "ValueError"%string "Domain error in arguments."%string.

(** [norm.rvs(loc, scale)] on the tape.  scipy refuses a scale for which
    [scale >= 0] is false (negative, or NaN); a scale of zero returns [loc]
    without drawing; otherwise the result is [z * scale + loc]. *)
Definition norm_rvs (loc scale : float) : M tape float :=
  if 0 <=? scale then
    if scale =? 0 then ret loc
    else bind (draw next) (fun z => ret (z * scale + loc))
  else call (Raise domain_error).

(** Unnormalised targets: a Cauchy bell, a box on [-1, 1], a constant, and
    one that raises left of the origin. *)
Definition cauchy : rv_frozen tape := dist (fun x => Ok (1 / (1 + x * x))).

Definition box : rv_frozen tape :=
  dist (fun x => Ok (if abs x <=? 1 then 1 else 0)).

Definition flat (c : float) : rv_frozen tape := dist (fun _ => Ok c).

Definition negative_argument : exn :=
  Exn "ValueError"%string "negative argument"%string.

Definition half_line : rv_frozen tape :=
  dist (fun x => if x <? 0 then Raise negative_argument else Ok 1).

End Mock.

Module Fixtures.
Import Mock.
Import String.

Definition tape_exhausted : exn :=
  Exn "StopIteration"%string "tape exhausted"%string.

(** A proposal whose [rvs] raises once the tape is used up. *)
Definition finite_script : rv_frozen tape :=
  {| pdf := fun _ => Ok 1;
     rvs := fun s => match s with
                     | [] => (Raise tape_exhausted, [])
                     | v :: s' => (Ok v, s')
                     end |}.

(** [norm.rvs] that raises on an empty tape. *)
Definition norm_rvs_script (loc scale : float) : M tape float :=
  if 0 <=? scale then
    if scale =? 0 then ret loc
    else bind (rvs finite_script) (fun z => ret (z * scale + loc))
  else call (Raise domain_error).

(** Stand-ins for the lifetime density and the shifted bell. *)
Definition decay (x : float) : float := 1 / (1 + x).

Definition bell (x loc scale : float) : float :=
  1 / (1 + (x - loc) * (x - loc)).

End Fixtures.

(** ** Facts on binary64 arithmetic used by the sampler *)

Module F64Facts.
Import F64.

Lemma SF_one : Prim2SF 1 = S754_finite false 4503599627370496 (-52).
Proof. reflexivity. Qed.

Lemma SF_zero : Prim2SF 0 = S754_zero false.
Proof. reflexivity. Qed.

Lemma of_SF (x : float) (v : spec_float) (w : float) :
  Prim2SF x = v -> Prim2SF w = v -> x = w.
Proof. intros Hx Hw. apply Prim2SF_inj. congruence. Qed.

(** Shape of a positive number: finite with a clear sign bit, or [+inf]. *)
Lemma positive_inv (x : float) :
  is_positive x ->
  (exists m e, Prim2SF x = S754_finite false m e) \/
  Prim2SF x = S754_infinity false.
Proof.
  unfold is_positive. rewrite FloatAxioms.ltb_spec, SF_zero.
  destruct (Prim2SF x) as [s|s| |s m e]; cbn; try discriminate.
  - destruct s; [discriminate|]. now right.
  - destruct s; [discriminate|]. left. now exists m, e.
Qed.

Lemma positive_finite_inv (x : float) :
  is_positive x -> is_finite x -> exists m e, Prim2SF x = S754_finite false m e.
Proof.
  intros Hp Hf. destruct (positive_inv x Hp) as [H|H]; [exact H|].
  unfold is_finite in Hf.
  rewrite FloatAxioms.ltb_spec, abs_spec, H in Hf. discriminate.
Qed.

(** Shape of a density value: a zero, or finite with a clear sign bit. *)
Lemma density_inv (x : float) :
  is_density x ->
  (exists s, Prim2SF x = S754_zero s) \/
  (exists m e, Prim2SF x = S754_finite false m e).
Proof.
  intros [Hle Hf]. unfold is_finite in Hf.
  rewrite FloatAxioms.ltb_spec, abs_spec in Hf.
  rewrite FloatAxioms.leb_spec, SF_zero in Hle.
  destruct (Prim2SF x) as [s|s| |s m e]; cbn in *; try discriminate.
  - left. now exists s.
  - destruct s; [discriminate|]. right. now exists m, e.
Qed.

(** Nothing compares below or equal to NaN. *)
Lemma leb_nan_r (u : float) : (u <=? nan) = false.
Proof.
  rewrite FloatAxioms.leb_spec. change (Prim2SF nan) with S754_nan.
  now destruct (Prim2SF u) as [s|s| |s m e].
Qed.

Lemma isnan_SF (x : float) : isnan x = true <-> Prim2SF x = S754_nan.
Proof.
  unfold isnan. rewrite FloatAxioms.eqb_spec. unfold SFeqb.
  destruct (Prim2SF x) as [s|s| |s m e]; cbn.
  - split; discriminate.
  - destruct s; split; discriminate.
  - split; reflexivity.
  - rewrite Z.compare_refl.
    assert (Hc : Pos.compare_cont Eq m m = Eq) by apply Pos.compare_refl.
    rewrite Hc. destruct s; cbn; split; discriminate.
Qed.

Lemma isnan_nan (x : float) : isnan x = true -> x = nan.
Proof. intros H. apply isnan_SF in H. now apply (of_SF x S754_nan nan). Qed.

Lemma leb_zero_not_nan (x : float) : (0 <=? x) = true -> isnan x = false.
Proof.
  intros H. destruct (isnan x) eqn:E; [|reflexivity].
  apply isnan_nan in E. subst x. discriminate.
Qed.

(** Division by [+0]: a positive numerator overflows to [+inf]. *)
Lemma div_positive_zero (p : float) : is_positive p -> p / 0 = infinity.
Proof.
  intros Hp. apply (of_SF _ (S754_infinity false)); [|reflexivity].
  rewrite div_spec, SF_zero.
  destruct (positive_inv p Hp) as [(m & e & H)|H]; now rewrite H.
Qed.

(** [+0] over a positive denominator is [+0]. *)
Lemma div_zero_positive (p : float) : is_positive p -> 0 / p = 0.
Proof.
  intros Hp. apply (of_SF _ (S754_zero false)); [|reflexivity].
  rewrite div_spec, SF_zero.
  destruct (positive_inv p Hp) as [(m & e & H)|H]; now rewrite H.
Qed.

Lemma div_eucl_pair (a b : Z) : Z.div_eucl a b = ((a / b)%Z, (a mod b)%Z).
Proof. unfold Z.div, Z.modulo. now destruct (Z.div_eucl a b). Qed.

(** A finite positive number over itself is exactly one: the quotient of
    the aligned mantissas is [2^53] with no remainder, whatever they are. *)
Lemma SFdiv_self (m : positive) (e : Z) :
  SF64div (S754_finite false m e) (S754_finite false m e) = Prim2SF 1.
Proof.
  unfold SF64div, SFdiv, SFdiv_core_binary.
  replace (Zdigits2 (Z.pos m) + e - (Zdigits2 (Z.pos m) + e))%Z with 0%Z by lia.
  rewrite Z.sub_diag.
  change (Z.min (fexp prec emax 0) 0) with (-53)%Z.
  change (0 - -53)%Z with 53%Z.
  cbv beta iota zeta.
  rewrite div_eucl_pair, Z.shiftl_mul_pow2 by lia.
  rewrite Z.mul_comm, Z.div_mul, Z.mod_mul by lia.
  replace (new_location (Z.pos m) 0) with loc_Exact.
  - reflexivity.
  - unfold new_location. now destruct (Z.even (Z.pos m)).
Qed.

Lemma div_self (c : float) : is_positive c -> is_finite c -> c / c = 1.
Proof.
  intros Hp Hf. destruct (positive_finite_inv c Hp Hf) as (m & e & H).
  apply Prim2SF_inj. rewrite div_spec, H. apply SFdiv_self.
Qed.

(** *** Rounding keeps the sign *)

Lemma iter_pos_keeps {A : Type} (P : A -> Prop) (f : A -> A) :
  (forall a, P a -> P (f a)) -> forall p a, P a -> P (SpecFloat.iter_pos f p a).
Proof.
  intros Hf p. induction p as [p IH|p IH|]; intros a Ha; cbn; auto.
Qed.

Lemma shr_1_nonneg (mrs : shr_record) :
  (0 <= shr_m mrs)%Z -> (0 <= shr_m (shr_1 mrs))%Z.
Proof.
  destruct mrs as [m r t]. cbn.
  destruct m as [|[p|p|]|p]; cbn; lia.
Qed.

Lemma shr_fexp_nonneg (m e : Z) (l : location) :
  (0 <= m)%Z -> (0 <= shr_m (fst (shr_fexp prec emax m e l)))%Z.
Proof.
  intros Hm. unfold shr_fexp, shr.
  assert (H0 : (0 <= shr_m (shr_record_of_loc m l))%Z)
    by (destruct l as [|[]]; exact Hm).
  destruct (fexp prec emax (Zdigits2 m + e) - e)%Z; cbn [fst]; auto.
  apply (iter_pos_keeps (fun r => (0 <= shr_m r)%Z)); auto using shr_1_nonneg.
Qed.

Lemma round_nearest_even_nonneg (m : Z) (l : location) :
  (0 <= m)%Z -> (0 <= round_nearest_even m l)%Z.
Proof.
  intros Hm. destruct l as [|[]]; cbn; try lia. destruct (Z.even m); lia.
Qed.

Lemma binary_round_aux_signed (s : bool) (m e : Z) (l : location) :
  (0 <= m)%Z -> signed s (binary_round_aux prec emax s m e l).
Proof.
  intros Hm. unfold binary_round_aux.
  pose proof (shr_fexp_nonneg m e l Hm) as H1.
  destruct (shr_fexp prec emax m e l) as [mrs1 e1]. cbn [fst] in H1.
  pose proof (shr_fexp_nonneg _ e1 loc_Exact
                (round_nearest_even_nonneg _ (loc_of_shr_record mrs1) H1)) as H2.
  destruct (shr_fexp prec emax _ e1 loc_Exact) as [mrs2 e2]. cbn [fst] in H2.
  destruct (shr_m mrs2) as [|p|p]; cbn; [reflexivity| |lia].
  destruct (e2 <=? 971)%Z; reflexivity.
Qed.

Lemma SFdiv_finite_signed (mx my : positive) (ex ey : Z) :
  signed false (SF64div (S754_finite false mx ex) (S754_finite false my ey)).
Proof.
  unfold SF64div, SFdiv, SFdiv_core_binary.
  rewrite div_eucl_pair. cbn [xorb].
  apply binary_round_aux_signed.
  apply Z.div_pos; [|lia].
  destruct (ex - ey - _)%Z; [lia| |lia].
  apply Z.shiftl_nonneg. lia.
Qed.

(** Within the contract the ratio is a number that is not below zero. *)
Lemma div_density (py px : float) :
  is_density py -> is_positive px -> is_finite px -> (0 <=? py / px) = true.
Proof.
  intros Hy Hp Hf.
  destruct (positive_finite_inv px Hp Hf) as (mx & ex & Hx).
  rewrite FloatAxioms.leb_spec, SF_zero, div_spec, Hx.
  destruct (density_inv py Hy) as [(s & H)|(my & ey & H)]; rewrite H.
  - reflexivity.
  - pose proof (SFdiv_finite_signed my mx ey ex) as Hs.
    destruct (SF64div _ _) as [s|s| |s m e]; cbn in Hs; subst; try easy.
Qed.

(** *** Comparisons against one *)

Lemma SFcompare_antisym (x y : spec_float) :
  SFcompare x y = option_map CompOpp (SFcompare y x).
Proof.
  destruct x as [s|s| |s m e], y as [t|t| |t n f]; cbn;
    try reflexivity; try (now destruct s); try (now destruct t);
    try (now destruct s, t).
  destruct s, t; cbn; try reflexivity; f_equal;
    rewrite (Z.compare_antisym e f);
    destruct (e ?= f)%Z; cbn; try reflexivity.
  - rewrite Pos.compare_cont_antisym. cbn. now rewrite CompOpp_involutive.
  - now rewrite Pos.compare_cont_antisym.
Qed.

Lemma SFcompare_eq_finite (v : spec_float) (n : positive) (f : Z) :
  SFcompare v (S754_finite false n f) = Some Eq -> v = S754_finite false n f.
Proof.
  destruct v as [s|s| |s m e]; cbn; try discriminate.
  - destruct s; discriminate.
  - destruct s; [discriminate|].
    destruct (e ?= f)%Z eqn:He; try discriminate.
    intros Hm. apply Z.compare_eq in He. subst e.
    injection Hm as Hm. apply Pos.compare_eq in Hm. now subst m.
Qed.

Lemma SFcompare_eq_one (v : spec_float) :
  SFcompare v (Prim2SF 1) = Some Eq -> v = Prim2SF 1.
Proof. rewrite SF_one. apply SFcompare_eq_finite. Qed.

Lemma SFcompare_not_nan (x y : float) :
  isnan x = false -> isnan y = false ->
  exists c, SFcompare (Prim2SF x) (Prim2SF y) = Some c.
Proof.
  intros Hx Hy.
  assert (Nx : Prim2SF x <> S754_nan)
    by (intros E; apply isnan_SF in E; congruence).
  assert (Ny : Prim2SF y <> S754_nan)
    by (intros E; apply isnan_SF in E; congruence).
  destruct (Prim2SF x) as [s|s| |s m e], (Prim2SF y) as [t|t| |t n f]; cbn;
    try congruence; eauto.
Qed.

(** The order of the arguments of [min] matters for NaN only. *)
Lemma min_one_comm (r : float) : isnan r = false -> Py.min r 1 = Py.min 1 r.
Proof.
  intros Hr. unfold Py.min. rewrite !FloatAxioms.ltb_spec. unfold SFltb.
  destruct (SFcompare_not_nan r 1 Hr eq_refl) as [c Hc].
  rewrite (SFcompare_antisym (Prim2SF 1)), Hc.
  destruct c; cbn; try reflexivity.
  apply Prim2SF_inj. now apply SFcompare_eq_one.
Qed.

(** Below one means not at or above one. *)
Lemma ltb_one_not_leb (r : float) : (r <? 1) = true -> (1 <=? r) = false.
Proof.
  rewrite FloatAxioms.ltb_spec, FloatAxioms.leb_spec. unfold SFltb, SFleb.
  rewrite (SFcompare_antisym (Prim2SF 1)).
  destruct (SFcompare (Prim2SF r) (Prim2SF 1)) as [[]|]; cbn; congruence.
Qed.

Lemma ltb_one_min (r : float) : (r <? 1) = true -> Py.min r 1 = r.
Proof.
  intros H. unfold Py.min.
  rewrite FloatAxioms.ltb_spec in *. unfold SFltb in *.
  rewrite (SFcompare_antisym (Prim2SF 1)).
  destruct (SFcompare (Prim2SF r) (Prim2SF 1)) as [[]|]; cbn; congruence.
Qed.

(** Capping at one keeps a ratio that is not below zero not below zero. *)
Lemma leb_zero_min (r : float) : (0 <=? r) = true -> (0 <=? Py.min r 1) = true.
Proof. intros H. unfold Py.min. now destruct (1 <? r). Qed.

(** Density values within the contract, the current one above zero, have a
    ratio that is a number. *)
Lemma ratio_is_number (py px : float) :
  is_density py -> is_positive px -> is_finite px -> isnan (py / px) = false.
Proof. intros Hy Hp Hf. now apply leb_zero_not_nan, div_density. Qed.

End F64Facts.

(** ** The loop *)

Lemma last_cons_default {A : Type} (l : list A) (a d : A) :
  last (a :: l) d = last l a.
Proof.
  revert a d. induction l as [|b l IH]; intros a d; [reflexivity|].
  change (last (a :: b :: l) d) with (last (b :: l) d).
  now rewrite (IH b d), (IH b a).
Qed.

Section Loop.

Context {rng : Type}.
Variable uniform_rvs : rng -> float * rng.

Implicit Types (s : rng) (k : nat) (n : Z) (x y u : float) (samples : list float).

Lemma bind_ok {A B : Type} (c : M rng A) (f : A -> M rng B) s a s' :
  c s = (Ok a, s') -> bind c f s = f a s'.
Proof. intros H. unfold bind. now rewrite H. Qed.

Lemma bind_raise {A B : Type} (c : M rng A) (f : A -> M rng B) s e s' :
  c s = (Raise e, s') -> bind c f s = (Raise e, s').
Proof. intros H. unfold bind. now rewrite H. Qed.

Lemma bind_inv {A B : Type} (c : M rng A) (f : A -> M rng B) s b s' :
  bind c f s = (Ok b, s') ->
  exists a s1, c s = (Ok a, s1) /\ f a s1 = (Ok b, s').
Proof.
  unfold bind. destruct (c s) as [[a|e] s1]; [eauto|discriminate].
Qed.

Lemma bind_assoc {A B C : Type} (c : M rng A) (f : A -> M rng B)
  (g : B -> M rng C) s :
  bind (bind c f) g s = bind c (fun a => bind (f a) g) s.
Proof. unfold bind. now destruct (c s) as [[a|e] s1]. Qed.

Lemma bind_ext {A B : Type} (c : M rng A) (f g : A -> M rng B) s :
  (forall a s1, f a s1 = g a s1) -> bind c f s = bind c g s.
Proof. intros H. unfold bind. now destruct (c s) as [[a|e] s1]. Qed.

Lemma iterate_ext {S : Type} (b1 b2 : S -> M rng S) :
  (forall st s, b1 st s = b2 st s) ->
  forall k st s, iterate k b1 st s = iterate k b2 st s.
Proof.
  intros Hb k. induction k as [|k IH]; intros st s; cbn; [reflexivity|].
  unfold bind. rewrite Hb. destruct (b2 st s) as [[a|e] s1]; auto.
Qed.

(** The last pass of the loop, peeled off. *)
Lemma iterate_snoc {S : Type} (body : S -> M rng S) k st s :
  iterate (Datatypes.S k) body st s = bind (iterate k body st) body s.
Proof.
  revert st s. induction k as [|k IH]; intros st s.
  - cbn. unfold bind, ret. now destruct (body st s) as [[a|e] s1].
  - change (iterate (Datatypes.S (Datatypes.S k)) body st s)
      with (bind (body st) (iterate (Datatypes.S k) body) s).
    change (iterate (Datatypes.S k) body st)
      with (bind (body st) (iterate k body)).
    rewrite bind_assoc. apply bind_ext. intros a s1. apply IH.
Qed.

(** Once a pass has raised, more passes change nothing. *)
Lemma iterate_raise_more {S : Type} (body : S -> M rng S) k j st s e s' :
  iterate k body st s = (Raise e, s') ->
  iterate (k + j) body st s = (Raise e, s').
Proof.
  intros H. induction j as [|j IH].
  - now rewrite Nat.add_0_r.
  - rewrite Nat.add_succ_r, iterate_snoc. now apply bind_raise.
Qed.

(** *** One pass *)

Section Pass.

Variable propose : float -> M rng float.
Variable target : rv_frozen rng.

Local Abbreviation body := (iteration uniform_rvs propose target).

(** What a pass does when nothing raises. *)
Lemma iteration_ok x samples s y s1 u s2 py px :
  propose x s = (Ok y, s1) ->
  uniform_rvs s1 = (u, s2) ->
  pdf target y = Ok py ->
  pdf target x = Ok px ->
  body (x, samples) s =
    (Ok (if u <=? Py.min (py / px) 1 then (y, samples ++ [y])
         else (x, samples ++ [x])), s2).
Proof.
  intros Hy Hu Hpy Hpx. unfold iteration.
  rewrite (bind_ok _ _ _ _ _ Hy).
  unfold bind, draw, call, ret. rewrite Hu, Hpy, Hpx.
  now destruct (u <=? Py.min (py / px) 1).
Qed.

(** The candidate's density is asked first, and its exception leaves. *)
Lemma iteration_raise_candidate x samples s y s1 u s2 e :
  propose x s = (Ok y, s1) ->
  uniform_rvs s1 = (u, s2) ->
  pdf target y = Raise e ->
  body (x, samples) s = (Raise e, s2).
Proof.
  intros Hy Hu Hpy. unfold iteration.
  rewrite (bind_ok _ _ _ _ _ Hy).
  unfold bind, draw, call. now rewrite Hu, Hpy.
Qed.

Lemma iteration_raise_current x samples s y s1 u s2 py e :
  propose x s = (Ok y, s1) ->
  uniform_rvs s1 = (u, s2) ->
  pdf target y = Ok py ->
  pdf target x = Raise e ->
  body (x, samples) s = (Raise e, s2).
Proof.
  intros Hy Hu Hpy Hpx. unfold iteration.
  rewrite (bind_ok _ _ _ _ _ Hy).
  unfold bind, draw, call. now rewrite Hu, Hpy, Hpx.
Qed.

Lemma iteration_raise_proposal x samples s e s1 :
  propose x s = (Raise e, s1) -> body (x, samples) s = (Raise e, s1).
Proof. intros Hy. unfold iteration. now apply bind_raise. Qed.

(** A pass that returns has appended the state it returns. *)
Lemma iteration_inv x samples s st s' :
  body (x, samples) s = (Ok st, s') ->
  exists v y s1 u py px,
    st = (v, samples ++ [v]) /\
    propose x s = (Ok y, s1) /\ uniform_rvs s1 = (u, s') /\
    pdf target y = Ok py /\ pdf target x = Ok px /\
    v = (if u <=? Py.min (py / px) 1 then y else x).
Proof.
  unfold iteration. intros H.
  apply bind_inv in H as (y & s1 & Hy & H).
  unfold bind, draw, call, ret in H.
  destruct (uniform_rvs s1) as [u s2] eqn:Hu.
  destruct (pdf target y) as [py|e] eqn:Hpy; [|discriminate].
  destruct (pdf target x) as [px|e] eqn:Hpx; [|discriminate].
  exists (if u <=? Py.min (py / px) 1 then y else x), y, s1, u, py, px.
  destruct (u <=? Py.min (py / px) 1); inversion H; subst; auto 10.
Qed.

(** After [k] passes the samples have grown by [k] and end in the state. *)
Lemma iterate_inv k x acc s x' out s' :
  iterate k body (x, acc) s = (Ok (x', out), s') ->
  exists tr, out = acc ++ tr /\ length tr = k /\ x' = last tr x.
Proof.
  revert x acc s. induction k as [|k IH]; intros x acc s H.
  - cbn in H. unfold ret in H. inversion H; subst.
    exists []. now rewrite app_nil_r.
  - cbn in H. apply bind_inv in H as (st & s1 & Hb & H).
    apply iteration_inv in Hb as (v & _ & _ & _ & _ & _ & -> & _).
    apply IH in H as (tr & Ho & Hl & Hx).
    exists (v :: tr). rewrite Ho, <- app_assoc, Hx, last_cons_default.
    cbn. now rewrite Hl.
Qed.

(** *** The whole run *)

Lemma MH_with_iterate initial k s :
  MH_with uniform_rvs propose initial target (Z.of_nat k) s =
  bind (iterate k body (initial, [])) (fun st => ret (snd st)) s.
Proof. unfold MH_with, for_range. now rewrite Nat2Z.id. Qed.

Lemma MH_with_nonpos initial n s :
  (n <= 0)%Z -> MH_with uniform_rvs propose initial target n s = (Ok [], s).
Proof.
  intros Hn. unfold MH_with, for_range.
  replace (Z.to_nat n) with O by lia. reflexivity.
Qed.

Lemma MH_with_ok_inv initial k s samples s' :
  MH_with uniform_rvs propose initial target (Z.of_nat k) s = (Ok samples, s') ->
  iterate k body (initial, []) s = (Ok (current initial samples, samples), s')
  /\ length samples = k.
Proof.
  rewrite MH_with_iterate. intros H.
  apply bind_inv in H as ([x out] & s1 & Hi & H).
  unfold ret in H. cbn in H. inversion H; subst.
  destruct (iterate_inv _ _ _ _ _ _ _ Hi) as (tr & -> & Hl & ->).
  now cbn.
Qed.

Lemma MH_with_length initial n s samples s' :
  MH_with uniform_rvs propose initial target n s = (Ok samples, s') ->
  length samples = Z.to_nat n.
Proof.
  intros H. destruct (Z.le_gt_cases 0 n) as [Hn|Hn].
  - rewrite <- (Z2Nat.id n Hn) in H. now apply MH_with_ok_inv in H.
  - rewrite MH_with_nonpos in H by lia. inversion H. cbn. lia.
Qed.

(** One more pass after a run of [k] that returned. *)
Lemma MH_with_succ initial k s samples sk :
  MH_with uniform_rvs propose initial target (Z.of_nat k) s = (Ok samples, sk) ->
  MH_with uniform_rvs propose initial target (Z.of_nat k + 1) s =
  bind (body (current initial samples, samples)) (fun st => ret (snd st)) sk.
Proof.
  intros H. apply MH_with_ok_inv in H as [H _].
  replace (Z.of_nat k + 1)%Z with (Z.of_nat (Datatypes.S k)) by lia.
  rewrite MH_with_iterate.
  unfold bind at 1. rewrite iterate_snoc, (bind_ok _ _ _ _ _ H).
  reflexivity.
Qed.

Lemma MH_with_step initial k s samples sk y s1 u s2 py px :
  MH_with uniform_rvs propose initial target (Z.of_nat k) s = (Ok samples, sk) ->
  propose (current initial samples) sk = (Ok y, s1) ->
  uniform_rvs s1 = (u, s2) ->
  pdf target y = Ok py ->
  pdf target (current initial samples) = Ok px ->
  MH_with uniform_rvs propose initial target (Z.of_nat k + 1) s =
    (Ok (samples ++ [if u <=? Py.min (py / px) 1 then y
                     else current initial samples]), s2).
Proof.
  intros H Hy Hu Hpy Hpx. rewrite (MH_with_succ _ _ _ _ _ H).
  rewrite (bind_ok _ _ _ _ _ (iteration_ok _ samples _ _ _ _ _ _ _ Hy Hu Hpy Hpx)).
  now destruct (u <=? Py.min (py / px) 1).
Qed.

(** A run that raised within [k] passes raises the same for any longer one. *)
Lemma MH_with_raise_more initial k n s e s' :
  MH_with uniform_rvs propose initial target (Z.of_nat k) s = (Raise e, s') ->
  (Z.of_nat k <= n)%Z ->
  MH_with uniform_rvs propose initial target n s = (Raise e, s').
Proof.
  rewrite MH_with_iterate. intros H Hn.
  assert (Hi : iterate k body (initial, []) s = (Raise e, s')).
  { unfold bind in H. destruct (iterate k body (initial, []) s) as [[st|e'] s1];
      [discriminate|now inversion H]. }
  unfold MH_with, for_range.
  replace (Z.to_nat n) with (k + (Z.to_nat n - k))%nat by lia.
  apply bind_raise. now apply iterate_raise_more.
Qed.

(** With a proposal and a density that never raise, the run returns. *)
Lemma MH_with_total initial n s :
  (forall x s0, exists y s1, propose x s0 = (Ok y, s1)) ->
  (forall v, exists p, pdf target v = Ok p) ->
  exists samples s',
    MH_with uniform_rvs propose initial target n s = (Ok samples, s').
Proof.
  intros Hp Hd. unfold MH_with, for_range.
  assert (H : forall k st s0, exists st' s1,
             iterate k body st s0 = (Ok st', s1)).
  { intros k. induction k as [|k IH]; intros [x acc] s0; cbn.
    - unfold ret. eauto.
    - destruct (Hp x s0) as (y & s1 & Hy).
      destruct (uniform_rvs s1) as [u s2] eqn:Hu.
      destruct (Hd y) as (py & Hpy). destruct (Hd x) as (px & Hpx).
      rewrite (bind_ok _ _ _ _ _
                 (iteration_ok _ acc _ _ _ _ _ _ _ Hy Hu Hpy Hpx)).
      apply IH. }
  destruct (H (Z.to_nat n) (initial, []) s) as ([x out] & s1 & Hi).
  exists out, s1. now rewrite (bind_ok _ _ _ _ _ Hi).
Qed.

(** The first sample is the state after the first decision. *)
Lemma MH_with_head initial n s samples s' y s1 u s2 py px :
  (0 < n)%Z ->
  MH_with uniform_rvs propose initial target n s = (Ok samples, s') ->
  propose initial s = (Ok y, s1) ->
  uniform_rvs s1 = (u, s2) ->
  pdf target y = Ok py ->
  pdf target initial = Ok px ->
  hd_error samples =
    Some (if u <=? Py.min (py / px) 1 then y else initial).
Proof.
  intros Hn H Hy Hu Hpy Hpx. unfold MH_with, for_range in H.
  destruct (Z.to_nat n) as [|k] eqn:Hk; [lia|].
  apply bind_inv in H as ([x out] & s3 & Hi & H).
  unfold ret in H. cbn in H. inversion H; subst. clear H.
  cbn in Hi.
  rewrite (bind_ok _ _ _ _ _
             (iteration_ok _ [] _ _ _ _ _ _ _ Hy Hu Hpy Hpx)) in Hi.
  destruct (u <=? Py.min (py / px) 1);
    apply iterate_inv in Hi as (tr & -> & _); reflexivity.
Qed.

End Pass.

End Loop.

(** ** The two notebooks as instances of the loop *)

Section Notebooks.

Context {rng : Type}.
Variable uniform_rvs : rng -> float * rng.
Variable norm_rvs : float -> float -> M rng float.

Implicit Types (s : rng) (k : nat) (n : Z) (x y u d : float)
  (samples : list float) (target proposal : rv_frozen rng).

Lemma MH_unfold initial target proposal n s :
  MH uniform_rvs initial target proposal n s =
  MH_with uniform_rvs (offset_proposal proposal) initial target n s.
Proof.
  unfold MH, MH_with.
  transitivity
    (bind (for_range n (iteration uniform_rvs (offset_proposal proposal) target)
             (initial, []))
       (fun '(x, samples) => ret samples) s).
  - unfold bind at 1 5. unfold for_range.
    rewrite (iterate_ext _ (iteration uniform_rvs (offset_proposal proposal) target));
      [reflexivity|].
    intros [x acc] s0. unfold iteration, offset_proposal.
    rewrite bind_assoc. reflexivity.
  - apply bind_ext. now intros [x acc] s1.
Qed.

Lemma MH_std_unfold initial target proposal_std n s :
  MH_std uniform_rvs norm_rvs initial target proposal_std n s =
  MH_with uniform_rvs (scaled_proposal norm_rvs proposal_std) initial target n s.
Proof.
  unfold MH_std, MH_with.
  transitivity
    (bind (for_range n
             (iteration uniform_rvs (scaled_proposal norm_rvs proposal_std) target)
             (initial, []))
       (fun '(x, samples) => ret samples) s).
  - unfold bind at 1 5. unfold for_range.
    rewrite (iterate_ext _
               (iteration uniform_rvs (scaled_proposal norm_rvs proposal_std) target));
      [reflexivity|].
    now intros [x acc] s0.
  - apply bind_ext. now intros [x acc] s1.
Qed.

Lemma offset_proposal_ok proposal x s d s1 :
  rvs proposal s = (Ok d, s1) -> offset_proposal proposal x s = (Ok (x + d), s1).
Proof. intros H. unfold offset_proposal. now rewrite (bind_ok _ _ _ _ _ H). Qed.

Lemma offset_proposal_total proposal :
  (forall s0, exists d s1, rvs proposal s0 = (Ok d, s1)) ->
  forall x s0, exists y s1, offset_proposal proposal x s0 = (Ok y, s1).
Proof.
  intros H x s0. destruct (H s0) as (d & s1 & Hd).
  exists (x + d), s1. now apply offset_proposal_ok.
Qed.

Lemma current_snoc initial samples x : current initial (samples ++ [x]) = x.
Proof. apply last_last. Qed.

Lemma draw_inv {A : Type} (g : rng -> A * rng) s a s' :
  draw g s = (Ok a, s') -> g s = (a, s').
Proof. unfold draw. destruct (g s). now inversion 1. Qed.

(** What [draws] hands to the first of [k + 1] passes, and what is left. *)
Lemma draws_succ_inv proposal k s l s' :
  draws uniform_rvs proposal (S k) s = (Ok l, s') ->
  exists d s1 u s2 rest,
    rvs proposal s = (Ok d, s1) /\ uniform_rvs s1 = (u, s2) /\
    draws uniform_rvs proposal k s2 = (Ok rest, s') /\ l = (d, u) :: rest.
Proof.
  cbn [draws]. intros H.
  apply bind_inv in H as (d & s1 & Hd & H).
  apply bind_inv in H as (u & s2 & Hu & H).
  apply bind_inv in H as (rest & s3 & Hr & H).
  unfold ret in H. inversion H; subst.
  apply draw_inv in Hu. eauto 10.
Qed.

End Notebooks.

(** ** Properties of the sampler *)

Section Properties.

Context {rng : Type}.
Variable uniform_rvs : rng -> float * rng.
Variable norm_rvs : float -> float -> M rng float.

Implicit Types (s : rng) (k : nat) (n : Z) (x y u d : float)
  (samples : list float) (target proposal : rv_frozen rng).

(** C1. Acceptance rule of one iteration, in both notebooks.  After [k]
    iterations have produced [samples], the chain stands at
    [x = current initial samples].  If the next iteration proposes [y] (as
    [x + d] for the drawn offset [d], or as the draw of [norm.rvs(loc=x)]),
    draws the uniform [u], and the ratio [pi(y)/pi(x)] is a number (as it is
    for densities within the contract with [pi(x) > 0], see
    [F64Facts.ratio_is_number]), then the ratio the code computes is the
    specification's [a = min(1, pi(y)/pi(x))],
    and the run of [k + 1] iterations appends [y] when [u <= a] and [x]
    otherwise; the appended value is the new chain state. *)
Theorem MH_accepts_iff_uniform_below_ratio
  initial target k s samples sk y s1 u s2 py px :
  let x := current initial samples in
  uniform_rvs s1 = (u, s2) ->
  pdf target y = Ok py ->
  pdf target x = Ok px ->
  isnan (py / px) = false ->
  let a := acceptance_spec py px in
  let x' := if u <=? a then y else x in
  Py.min (py / px) 1 = a /\
  current initial (samples ++ [x']) = x' /\
  (forall proposal d,
     MH uniform_rvs initial target proposal (Z.of_nat k) s = (Ok samples, sk) ->
     rvs proposal sk = (Ok d, s1) ->
     y = x + d ->
     MH uniform_rvs initial target proposal (Z.of_nat k + 1) s
       = (Ok (samples ++ [x']), s2)) /\
  (forall proposal_std,
     MH_std uniform_rvs norm_rvs initial target proposal_std (Z.of_nat k) s
       = (Ok samples, sk) ->
     norm_rvs x proposal_std sk = (Ok y, s1) ->
     MH_std uniform_rvs norm_rvs initial target proposal_std (Z.of_nat k + 1) s
       = (Ok (samples ++ [x']), s2)).
Proof.
  intros x Hu Hpy Hpx Hr a x'.
  assert (Ha : Py.min (py / px) 1 = a) by now apply F64Facts.min_one_comm.
  split; [exact Ha|]. split; [apply current_snoc|]. split.
  - intros proposal d H Hd ->. rewrite MH_unfold in *.
    rewrite (MH_with_step _ _ _ _ _ _ _ _ _ _ _ _ py px H
               (offset_proposal_ok _ _ _ _ _ Hd) Hu Hpy Hpx).
    now rewrite Ha.
  - intros proposal_std H Hy. rewrite MH_std_unfold in *.
    rewrite (MH_with_step _ _ _ _ _ _ _ _ _ _ _ _ py px H Hy Hu Hpy Hpx).
    now rewrite Ha.
Qed.

(** C2. Length of the returned sequence.  For [n >= 0]: with [n = 0] the
    run returns the empty sequence and leaves the random source untouched;
    whenever a run returns a sequence it has exactly [n] elements; and when
    neither the proposal draw nor the density can raise, the run does return
    one. *)
Theorem MH_returns_n_samples initial target proposal n s :
  (0 <= n)%Z ->
  MH uniform_rvs initial target proposal 0 s = (Ok [], s) /\
  (forall samples s',
     MH uniform_rvs initial target proposal n s = (Ok samples, s') ->
     Z.of_nat (length samples) = n) /\
  ((forall s0, exists d s1, rvs proposal s0 = (Ok d, s1)) ->
   (forall v, exists p, pdf target v = Ok p) ->
   exists samples s',
     MH uniform_rvs initial target proposal n s = (Ok samples, s') /\
     Z.of_nat (length samples) = n).
Proof.
  intros Hn. split; [reflexivity|].
  assert (Hlen : forall samples s',
            MH uniform_rvs initial target proposal n s = (Ok samples, s') ->
            Z.of_nat (length samples) = n).
  { intros samples s' H. rewrite MH_unfold in H.
    apply MH_with_length in H. lia. }
  split; [exact Hlen|].
  intros Hp Hd.
  destruct (MH_with_total uniform_rvs (offset_proposal proposal) target initial n s
              (offset_proposal_total _ Hp) Hd) as (samples & s' & H).
  rewrite <- MH_unfold in H. eauto.
Qed.

(** C8. A rejected iteration appends the prior state itself.  If the
    iteration after [samples] draws [u] above the ratio ([u <= a] is false),
    the sequence grows by exactly [current initial samples], the value the
    chain held before the iteration; this is so in particular for [u = 1]
    and a density ratio below one. *)
Theorem MH_rejection_repeats_state
  initial target proposal k s samples sk d s1 u s2 py px :
  let x := current initial samples in
  MH uniform_rvs initial target proposal (Z.of_nat k) s = (Ok samples, sk) ->
  rvs proposal sk = (Ok d, s1) ->
  uniform_rvs s1 = (u, s2) ->
  pdf target (x + d) = Ok py ->
  pdf target x = Ok px ->
  ((u <=? Py.min (py / px) 1) = false ->
   MH uniform_rvs initial target proposal (Z.of_nat k + 1) s
     = (Ok (samples ++ [x]), s2)) /\
  (u = 1 -> (py / px <? 1) = true ->
   MH uniform_rvs initial target proposal (Z.of_nat k + 1) s
     = (Ok (samples ++ [x]), s2)).
Proof.
  intros x H Hd Hu Hpy Hpx. rewrite MH_unfold in *.
  assert (Hstep := MH_with_step _ _ _ _ _ _ _ _ _ _ _ _ py px H
                     (offset_proposal_ok _ _ _ _ _ Hd) Hu Hpy Hpx).
  fold x in Hstep. split.
  - intros Hrej. now rewrite Hrej in Hstep.
  - intros -> Hlt. rewrite (F64Facts.ltb_one_min _ Hlt) in Hstep.
    now rewrite (F64Facts.ltb_one_not_leb _ Hlt) in Hstep.
Qed.

(** C3, as the code has it.  Nothing special-cases a zero density at the
    current state: the division is carried out in binary64.  With
    [pi(x) = +0] and [pi(y) > 0] the ratio is [+inf], the capped ratio is
    [1], and every [u <= 1] moves the chain to [y].  With [pi(y) = pi(x) = 0]
    the ratio is NaN, so is [a], the test [u <= a] is false and the chain
    stays at [x] for every [u]. *)
Theorem MH_divides_by_zero_density
  initial target proposal k s samples sk d s1 u s2 py :
  let x := current initial samples in
  let y := x + d in
  MH uniform_rvs initial target proposal (Z.of_nat k) s = (Ok samples, sk) ->
  rvs proposal sk = (Ok d, s1) ->
  uniform_rvs s1 = (u, s2) ->
  pdf target x = Ok 0 ->
  pdf target y = Ok py ->
  (F64.is_positive py ->
   Py.min (py / 0) 1 = 1 /\
   ((u <=? 1) = true ->
    MH uniform_rvs initial target proposal (Z.of_nat k + 1) s
      = (Ok (samples ++ [y]), s2))) /\
  (py = 0 ->
   Py.min (py / 0) 1 = nan /\
   MH uniform_rvs initial target proposal (Z.of_nat k + 1) s
     = (Ok (samples ++ [x]), s2)).
Proof.
  intros x y H Hd Hu Hpx Hpy. rewrite MH_unfold in *.
  assert (Hstep := MH_with_step _ _ _ _ _ _ _ _ _ _ _ _ py 0 H
                     (offset_proposal_ok _ _ _ _ _ Hd) Hu Hpy Hpx).
  fold x in Hstep. fold y in Hstep. split.
  - intros Hpos. rewrite (F64Facts.div_positive_zero _ Hpos) in *.
    split; [reflexivity|]. intros Hle. rewrite Hstep.
    change (Py.min infinity 1) with 1. now rewrite Hle.
  - intros ->. change (Py.min (0 / 0) 1) with nan in *.
    split; [reflexivity|]. now rewrite F64Facts.leb_nan_r in Hstep.
Qed.

(** C4, as the code has it.  [MH] checks neither of its arguments.  For
    every [n <= 0], negative counts included, and whatever the proposal or
    its scale, no iteration runs and the empty sequence is returned with the
    random source untouched.  For [n > 0] a scale that [norm.rvs] refuses
    surfaces from the draw inside the first iteration. *)
Theorem MH_validates_nothing initial target n s :
  ((n <= 0)%Z ->
   (forall proposal,
      MH uniform_rvs initial target proposal n s = (Ok [], s)) /\
   (forall proposal_std,
      MH_std uniform_rvs norm_rvs initial target proposal_std n s = (Ok [], s))) /\
  ((0 < n)%Z ->
   forall proposal_std e s1,
     norm_rvs initial proposal_std s = (Raise e, s1) ->
     MH_std uniform_rvs norm_rvs initial target proposal_std n s = (Raise e, s1)).
Proof.
  split.
  - intros Hn. split; intros p.
    + rewrite MH_unfold. now apply MH_with_nonpos.
    + rewrite MH_std_unfold. now apply MH_with_nonpos.
  - intros Hn sigma e s1 Hr. rewrite MH_std_unfold.
    apply (MH_with_raise_more _ _ _ _ 1); [|lia].
    change (Z.of_nat 1) with (Z.of_nat 0 + 1)%Z.
    rewrite (MH_with_succ _ _ _ initial 0 s [] s) by reflexivity.
    apply bind_raise. now apply iteration_raise_proposal.
Qed.

(** C5. An exception of the density ends the run with that exception.  For
    [n >= 0] a run yields either a sequence of exactly [n] samples or an
    exception, never fewer samples; and if, after [k < n] iterations that
    went through, the density raises [e] at the candidate or (the candidate
    having been evaluated) at the current state, the run of [n] iterations
    yields exactly [e]. *)
Theorem MH_density_error_propagates initial target proposal n s :
  (0 <= n)%Z ->
  (forall r s', MH uniform_rvs initial target proposal n s = (r, s') ->
     (exists samples, r = Ok samples /\ Z.of_nat (length samples) = n) \/
     (exists e, r = Raise e)) /\
  (forall k samples sk d s1 u s2 e,
     (Z.of_nat k < n)%Z ->
     MH uniform_rvs initial target proposal (Z.of_nat k) s = (Ok samples, sk) ->
     rvs proposal sk = (Ok d, s1) ->
     uniform_rvs s1 = (u, s2) ->
     let x := current initial samples in
     pdf target (x + d) = Raise e \/
     (exists py, pdf target (x + d) = Ok py /\ pdf target x = Raise e) ->
     MH uniform_rvs initial target proposal n s = (Raise e, s2)).
Proof.
  intros Hn. split.
  - intros [samples|e] s' H; [left|right; eauto].
    exists samples. split; [reflexivity|].
    rewrite MH_unfold in H. apply MH_with_length in H. lia.
  - intros k samples sk d s1 u s2 e Hk H Hd Hu x Hraise.
    rewrite MH_unfold in *.
    apply (MH_with_raise_more _ _ _ _ (S k)); [|lia].
    replace (Z.of_nat (S k)) with (Z.of_nat k + 1)%Z by lia.
    rewrite (MH_with_succ _ _ _ _ _ _ _ _ H). apply bind_raise.
    pose proof (offset_proposal_ok _ x _ _ _ Hd) as Hy.
    destruct Hraise as [Hpy|(py & Hpy & Hpx)].
    + now apply (iteration_raise_candidate _ _ _ _ _ _ _ _ _ _ _ Hy Hu).
    + now apply (iteration_raise_current _ _ _ _ _ _ _ _ _ _ _ _ Hy Hu Hpy).
Qed.

(** C6, as the code has it.  For [n > 0] the returned sequence is the
    trajectory after [x0]: it has [n] elements, not [n + 1], and its first
    element is the state after the first decision, [x0 + d1] if that
    proposal is accepted and [x0] itself if it is rejected.  So the value
    [x0] does occur in the output whenever the first proposal is rejected. *)
Theorem MH_starts_after_first_decision
  initial target proposal n s samples s' d s1 u s2 py px :
  (0 < n)%Z ->
  MH uniform_rvs initial target proposal n s = (Ok samples, s') ->
  rvs proposal s = (Ok d, s1) ->
  uniform_rvs s1 = (u, s2) ->
  pdf target (initial + d) = Ok py ->
  pdf target initial = Ok px ->
  Z.of_nat (length samples) = n /\
  hd_error samples =
    Some (if u <=? Py.min (py / px) 1 then initial + d else initial) /\
  ((u <=? Py.min (py / px) 1) = false -> In initial samples).
Proof.
  intros Hn H Hd Hu Hpy Hpx. rewrite MH_unfold in H.
  pose proof (MH_with_length _ _ _ _ _ _ _ _ H) as Hlen.
  pose proof (MH_with_head _ _ _ _ _ _ _ _ _ _ _ _ _ _ Hn H
                (offset_proposal_ok _ _ _ _ _ Hd) Hu Hpy Hpx) as Hhd.
  split; [lia|]. split; [exact Hhd|].
  intros Hrej. rewrite Hrej in Hhd.
  destruct samples as [|v tl]; [discriminate|].
  inversion Hhd. now left.
Qed.

(** C10, as the code has it.  With a uniform draw of exactly zero the
    iteration appends [y] when [0 <= a] and [x] otherwise, in both
    notebooks.  For density values within the contract (finite, not below
    zero): from a state of positive density [0 <= a] holds, so every
    proposal is accepted, one of density zero included, where [a = 0] and
    the chain enters a zero-density state; from a state of density [+0] a
    candidate of positive density is accepted ([a = 1]), and a candidate of
    density zero gives the ratio [0/0], a NaN, and is rejected. *)
Theorem MH_zero_uniform_decision
  initial target k s samples sk y s1 s2 py px :
  let x := current initial samples in
  uniform_rvs s1 = (0, s2) ->
  pdf target y = Ok py ->
  pdf target x = Ok px ->
  F64.is_density py ->
  let accept := 0 <=? Py.min (py / px) 1 in
  let x' := if accept then y else x in
  (F64.is_positive px -> F64.is_finite px ->
   accept = true /\ (py = 0 -> Py.min (py / px) 1 = 0)) /\
  (px = 0 -> F64.is_positive py ->
   accept = true /\ Py.min (py / px) 1 = 1) /\
  (px = 0 -> py = 0 ->
   accept = false /\ Py.min (py / px) 1 = nan) /\
  (forall proposal d,
     MH uniform_rvs initial target proposal (Z.of_nat k) s = (Ok samples, sk) ->
     rvs proposal sk = (Ok d, s1) ->
     y = x + d ->
     MH uniform_rvs initial target proposal (Z.of_nat k + 1) s
       = (Ok (samples ++ [x']), s2)) /\
  (forall proposal_std,
     MH_std uniform_rvs norm_rvs initial target proposal_std (Z.of_nat k) s
       = (Ok samples, sk) ->
     norm_rvs x proposal_std sk = (Ok y, s1) ->
     MH_std uniform_rvs norm_rvs initial target proposal_std (Z.of_nat k + 1) s
       = (Ok (samples ++ [x']), s2)).
Proof.
  intros x Hu Hpy Hpx Hdy accept x'.
  split; [|split; [|split; [|split]]].
  - intros Hpos Hfin. split.
    + apply F64Facts.leb_zero_min. now apply F64Facts.div_density.
    + intros ->. now rewrite (F64Facts.div_zero_positive _ Hpos).
  - intros -> Hpos. unfold accept.
    now rewrite (F64Facts.div_positive_zero _ Hpos).
  - intros -> ->. split; reflexivity.
  - intros proposal d H Hd ->. rewrite MH_unfold in *.
    now rewrite (MH_with_step _ _ _ _ _ _ _ _ _ _ _ _ py px H
                   (offset_proposal_ok _ _ _ _ _ Hd) Hu Hpy Hpx).
  - intros proposal_std H Hy. rewrite MH_std_unfold in *.
    now rewrite (MH_with_step _ _ _ _ _ _ _ _ _ _ _ _ py px H Hy Hu Hpy Hpx).
Qed.

(** On a flat target every pass accepts, so the loop walks the running
    sums of the offsets. *)
Lemma iterate_flat target proposal c k :
  (forall v, pdf target v = Ok c) ->
  c / c = 1 ->
  forall x acc s l s',
    draws uniform_rvs proposal k s = (Ok l, s') ->
    Forall (fun du => (snd du <=? 1) = true) l ->
    iterate k (iteration uniform_rvs (offset_proposal proposal) target) (x, acc) s
    = (Ok (last (partial_sums x (map fst l)) x,
           acc ++ partial_sums x (map fst l)), s').
Proof.
  intros Hflat Hone. induction k as [|k IH]; intros x acc s l s' Hdr Hall.
  - cbn in Hdr. unfold ret in Hdr. inversion Hdr; subst.
    cbn. unfold ret. now rewrite app_nil_r.
  - apply draws_succ_inv in Hdr
      as (d & s1 & u & s2 & rest & Hd & Hu & Hrest & ->).
    inversion Hall as [|du tl Hle Hall']; subst. cbn [snd] in Hle.
    cbn [iterate].
    rewrite (bind_ok _ _ _ _ _
               (iteration_ok _ _ _ _ acc _ _ _ _ _ _ _
                  (offset_proposal_ok _ x _ _ _ Hd) Hu (Hflat _) (Hflat _))).
    rewrite Hone. change (Py.min 1 1) with 1. rewrite Hle.
    rewrite (IH _ _ _ _ _ Hrest Hall').
    cbn [map fst partial_sums].
    now rewrite last_cons_default, <- app_assoc.
Qed.

(** C7. On a target density that is one finite positive constant [c], with
    uniform draws not above one, the capped ratio is [1] at every step,
    every proposal is accepted, and [MH] returns the running sums
    [x0 + d1, x0 + d1 + d2, ...] of the offsets it drew. *)
Theorem MH_flat_target_returns_partial_sums
  initial target proposal c n s l s' :
  (forall v, pdf target v = Ok c) ->
  F64.is_positive c ->
  F64.is_finite c ->
  draws uniform_rvs proposal (Z.to_nat n) s = (Ok l, s') ->
  Forall (fun du => (snd du <=? 1) = true) l ->
  Py.min (c / c) 1 = 1 /\
  MH uniform_rvs initial target proposal n s
    = (Ok (partial_sums initial (map fst l)), s').
Proof.
  intros Hflat Hpos Hfin Hdr Hall.
  pose proof (F64Facts.div_self c Hpos Hfin) as Hone.
  split; [now rewrite Hone|].
  rewrite MH_unfold. unfold MH_with, for_range.
  now rewrite (bind_ok _ _ _ _ _
                 (iterate_flat _ _ _ _ Hflat Hone _ [] _ _ _ Hdr Hall)).
Qed.

End Properties.

(** ** Determinism *)

Section Determinism.

(** Two random sources, possibly of different make. *)
Context {rngA rngB : Type}.
Variable uniformA : rngA -> float * rngA.
Variable uniformB : rngB -> float * rngB.
Variable targetA proposalA : rv_frozen rngA.
Variable targetB proposalB : rv_frozen rngB.

Hypothesis same_density : forall v, pdf targetA v = pdf targetB v.

Local Abbreviation bodyA := (iteration uniformA (offset_proposal proposalA) targetA).
Local Abbreviation bodyB := (iteration uniformB (offset_proposal proposalB) targetB).

Lemma iterate_same_draws k :
  forall st sA sB l sA' sB',
    draws uniformA proposalA k sA = (Ok l, sA') ->
    draws uniformB proposalB k sB = (Ok l, sB') ->
    fst (iterate k bodyA st sA) = fst (iterate k bodyB st sB).
Proof.
  induction k as [|k IH]; intros [x acc] sA sB l sA' sB' HA HB;
    [reflexivity|].
  apply draws_succ_inv in HA
    as (d & a1 & u & a2 & rest & HdA & HuA & HrA & ->).
  apply draws_succ_inv in HB
    as (d' & b1 & u' & b2 & rest' & HdB & HuB & HrB & E).
  inversion E; subst d' u' rest'. clear E.
  pose proof (offset_proposal_ok _ x _ _ _ HdA) as HyA.
  pose proof (offset_proposal_ok _ x _ _ _ HdB) as HyB.
  cbn [iterate].
  destruct (pdf targetA (x + d)) as [py|e] eqn:Hpy.
  - destruct (pdf targetA x) as [px|e] eqn:Hpx.
    + rewrite (bind_ok _ _ _ _ _
                 (iteration_ok _ _ _ _ acc _ _ _ _ _ _ _ HyA HuA Hpy Hpx)).
      rewrite same_density in Hpy, Hpx.
      rewrite (bind_ok _ _ _ _ _
                 (iteration_ok _ _ _ _ acc _ _ _ _ _ _ _ HyB HuB Hpy Hpx)).
      now apply (IH _ _ _ rest sA' sB').
    + rewrite (bind_raise _ _ _ _ _
                 (iteration_raise_current _ _ _ _ acc _ _ _ _ _ _ _
                    HyA HuA Hpy Hpx)).
      rewrite same_density in Hpy, Hpx.
      now rewrite (bind_raise _ _ _ _ _
                     (iteration_raise_current _ _ _ _ acc _ _ _ _ _ _ _
                        HyB HuB Hpy Hpx)).
  - rewrite (bind_raise _ _ _ _ _
               (iteration_raise_candidate _ _ _ _ acc _ _ _ _ _ _
                  HyA HuA Hpy)).
    rewrite same_density in Hpy.
    now rewrite (bind_raise _ _ _ _ _
                   (iteration_raise_candidate _ _ _ _ acc _ _ _ _ _ _
                      HyB HuB Hpy)).
Qed.

Lemma fst_bind {S A B : Type} (c : M S A) (f : A -> B) (s : S) :
  fst (bind c (fun a => ret (f a)) s) =
  match fst (c s) with Ok a => Ok (f a) | Raise e => Raise e end.
Proof. unfold bind, ret. now destruct (c s) as [[a|e] s1]. Qed.

(** C9. The output is a function of the draws.  Two runs from the same
    initial state, on the same density and for the same count, whose random
    sources hand out the same offsets and the same uniforms, return the same
    result: equal sequences, value for value, or the same exception. *)
Theorem MH_deterministic_given_draws initial n sA sB l sA' sB' :
  draws uniformA proposalA (Z.to_nat n) sA = (Ok l, sA') ->
  draws uniformB proposalB (Z.to_nat n) sB = (Ok l, sB') ->
  fst (MH uniformA initial targetA proposalA n sA) =
  fst (MH uniformB initial targetB proposalB n sB).
Proof.
  intros HA HB. rewrite !MH_unfold. unfold MH_with, for_range.
  rewrite !fst_bind.
  pose proof (iterate_same_draws _ (initial, []) _ _ _ _ _ HA HB) as H.
  now rewrite H.
Qed.

End Determinism.

(** ** Runs on the scripted source *)

Module Runs.
Import Mock.

(** From 0 on the Cauchy bell, offset 2 and uniform 1/2: the ratio is 1/5,
    the proposal is rejected. *)
Lemma MH_accepts_iff_uniform_below_ratio_run :
  isnan (1 / 5 / 1) = false /\
  MH next 0 cauchy scripted 1 [2; 0.5] = (Ok [0], []).
Proof.
  split; [reflexivity|].
  exact (proj1 (proj2 (proj2
    (@MH_accepts_iff_uniform_below_ratio tape next norm_rvs
       0 cauchy 0 [2; 0.5] [] [2; 0.5] 2 [0.5] 0.5 [] (1 / 5) 1
       eq_refl eq_refl eq_refl eq_refl)))
    scripted 2 eq_refl eq_refl eq_refl).
Defined.

Lemma scripted_rvs_total :
  forall s0 : tape, exists d s1, rvs scripted s0 = (Ok d, s1).
Proof. intros [|v s0]; cbn; eauto. Qed.

Lemma cauchy_pdf_total : forall v, exists p, pdf cauchy v = Ok p.
Proof. intros v. cbn. eauto. Qed.

Lemma MH_returns_n_samples_run :
  (0 <= 2)%Z /\
  exists samples s',
    MH next 0 cauchy scripted 2 [2; 0.5; 1; 0.25] = (Ok samples, s') /\
    Z.of_nat (length samples) = 2%Z.
Proof.
  split; [lia|].
  apply (@MH_returns_n_samples tape next 0 cauchy scripted 2
           [2; 0.5; 1; 0.25]); [lia| apply scripted_rvs_total
                               | apply cauchy_pdf_total].
Defined.

(** From 5, outside the box, to 1/2 inside it: the ratio is 1/0. *)
Lemma MH_divides_by_zero_density_run :
  pdf box 5 = Ok 0 /\ pdf box 0.5 = Ok 1 /\
  MH next 5 box scripted 1 [-4.5; 1] = (Ok [0.5], []).
Proof.
  split; [reflexivity|]. split; [reflexivity|].
  exact (proj2 (proj1
    (@MH_divides_by_zero_density tape next 5 box scripted 0
       [-4.5; 1] [] [-4.5; 1] (-4.5) [1] 1 [] 1
       eq_refl eq_refl eq_refl eq_refl eq_refl) eq_refl) eq_refl).
Defined.

Lemma MH_validates_nothing_run :
  MH next 1 cauchy scripted (-3) [2] = (Ok [], [2]) /\
  MH_std next norm_rvs 1 cauchy (-2) 2 [0.5; 0.25] = (Raise domain_error, [0.5; 0.25]).
Proof.
  split.
  - apply (proj1 (@MH_validates_nothing tape next norm_rvs 1 cauchy (-3) [2])).
    lia.
  - apply (proj2 (@MH_validates_nothing tape next norm_rvs 1 cauchy 2
                    [0.5; 0.25])); [lia|reflexivity].
Defined.

(** The second of three iterations proposes -1, where [half_line] raises. *)
Lemma MH_density_error_propagates_run :
  pdf half_line (-1) = Raise negative_argument /\
  MH next 0 half_line scripted 3 [1; 0.5; -2; 0.5; 1; 1]
    = (Raise negative_argument, [1; 1]).
Proof.
  split; [reflexivity|].
  apply (proj2 (@MH_density_error_propagates tape next 0 half_line scripted 3
                  [1; 0.5; -2; 0.5; 1; 1] ltac:(lia))
           1%nat [1] [-2; 0.5; 1; 1] (-2) [0.5; 1; 1] 0.5 [1; 1]);
    [lia|reflexivity|reflexivity|reflexivity|left; reflexivity].
Defined.

Lemma MH_starts_after_first_decision_run :
  MH next 0 cauchy scripted 2 [2; 1; 1; 0.25] = (Ok [0; 1], []) /\
  hd_error [0; 1] = Some 0 /\ In 0 [0; 1].
Proof.
  split; [reflexivity|].
  destruct (@MH_starts_after_first_decision tape next 0 cauchy scripted 2
              [2; 1; 1; 0.25] [0; 1] [] 2 [1; 1; 0.25] 1 [1; 0.25] (1 / 5) 1
              ltac:(lia) eq_refl eq_refl eq_refl eq_refl eq_refl)
    as (_ & Hhd & Hin).
  split; [exact Hhd|]. apply Hin. reflexivity.
Defined.

Lemma MH_flat_target_returns_partial_sums_run :
  F64.is_positive 0.25 /\ F64.is_finite 0.25 /\
  MH next 0 (flat 0.25) scripted 3 [1; 0.5; -2; 0.5; 1.5; 1]
    = (Ok [1; -1; 0.5], []).
Proof.
  split; [reflexivity|]. split; [reflexivity|].
  apply (proj2 (@MH_flat_target_returns_partial_sums tape next 0 (flat 0.25)
                  scripted 0.25 3 [1; 0.5; -2; 0.5; 1.5; 1]
                  [(1, 0.5); (-2, 0.5); (1.5, 1)] []
                  (fun _ => eq_refl) eq_refl eq_refl eq_refl
                  ltac:(repeat constructor))).
Defined.

(** From 1 to 3 on the Cauchy bell the ratio is below one; [u = 1] rejects. *)
Lemma MH_rejection_repeats_state_run :
  (1 / 10 / (1 / 2) <? 1) = true /\
  MH next 1 cauchy scripted 1 [2; 1] = (Ok [1], []).
Proof.
  split; [reflexivity|].
  exact (proj2
    (@MH_rejection_repeats_state tape next 1 cauchy scripted 0
       [2; 1] [] [2; 1] 2 [1] 1 [] (1 / 10) (1 / 2)
       eq_refl eq_refl eq_refl eq_refl eq_refl) eq_refl eq_refl).
Defined.

(** Two tapes that agree on the four draws of two iterations. *)
Lemma MH_deterministic_given_draws_run :
  fst (MH next 0 cauchy scripted 2 [2; 0.125; 1; 0.25]) =
  fst (MH next 0 cauchy scripted 2 [2; 0.125; 1; 0.25; 7; 7]).
Proof.
  apply (@MH_deterministic_given_draws tape tape next next cauchy scripted
           cauchy scripted (fun _ => eq_refl) 0 2
           [2; 0.125; 1; 0.25] [2; 0.125; 1; 0.25; 7; 7]
           [(2, 0.125); (1, 0.25)] [] [7; 7]); reflexivity.
Defined.

(** From 0 inside the box to 4.5 outside it, with [u = 0]. *)
Lemma MH_zero_uniform_decision_run :
  pdf box 4.5 = Ok 0 /\ pdf box 0 = Ok 1 /\
  MH next 0 box scripted 1 [4.5; 0] = (Ok [4.5], []).
Proof.
  split; [reflexivity|]. split; [reflexivity|].
  exact (proj1 (proj2 (proj2 (proj2
    (@MH_zero_uniform_decision tape next norm_rvs 0 box 0
       [4.5; 0] [] [4.5; 0] 4.5 [0] [] 0 1
       eq_refl eq_refl eq_refl (conj eq_refl eq_refl)))))
    scripted 4.5 eq_refl eq_refl eq_refl).
Defined.

(** A zero density at both points: the capped ratio is NaN, not zero, and
    the uniform draw 0, which a ratio of zero would let pass, is rejected. *)
Lemma nan_ratio_rejects_zero_uniform :
  pdf box 5 = Ok 0 /\ pdf box 6 = Ok 0 /\
  Py.min (0 / 0) 1 <> 0 /\
  (0 <=? 0) = true /\
  MH next 5 box scripted 1 [1; 0] = (Ok [5], []).
Proof.
  repeat split; try reflexivity.
  intros H. apply (f_equal isnan) in H. discriminate H.
Qed.

(** A negative count, and a scale of zero or below with no iteration to
    run, return the empty sequence instead of raising. *)
Lemma negative_count_returns_empty :
  MH next 1 cauchy scripted (-1) [2; 0.5] = (Ok [], [2; 0.5]) /\
  MH_std next norm_rvs 1 cauchy 2 (-1) [2; 0.5] = (Ok [], [2; 0.5]) /\
  MH_std next norm_rvs 1 cauchy (-2) 0 [2; 0.5] = (Ok [], [2; 0.5]) /\
  MH_std next norm_rvs 1 cauchy 0 (-5) [2; 0.5] = (Ok [], [2; 0.5]).
Proof. repeat split. Qed.

(** Two uniform draws of zero: the first takes the chain from 0 to 4.5,
    out of the box; the second, towards 5.5 and with both densities zero,
    is rejected. *)
Lemma zero_uniform_rejected_from_zero_density :
  pdf box 4.5 = Ok 0 /\ pdf box 5.5 = Ok 0 /\
  MH next 0 box scripted 2 [4.5; 0; 1; 0] = (Ok [4.5; 4.5], []).
Proof. repeat split. Qed.

(** One iteration from 0 that rejects returns the initial state. *)
Lemma rejected_first_proposal_returns_x0 :
  exists samples s',
    MH next 0 cauchy scripted 1 [2; 1] = (Ok samples, s') /\ In 0 samples.
Proof. exists [0], []. split; [reflexivity|now left]. Qed.

End Runs.

(** ** More facts on binary64 arithmetic *)

Module F64More.
Import F64.

(** Not below zero, as a shape: a zero of either sign, or a number or
    infinity with a clear sign bit. *)
Lemma leb_zero_inv (x : float) :
  (0 <=? x) = true ->
  (exists s, Prim2SF x = S754_zero s) \/ signed false (Prim2SF x).
Proof.
  rewrite FloatAxioms.leb_spec, F64Facts.SF_zero.
  destruct (Prim2SF x) as [s|s| |s m e]; cbn; try discriminate.
  - intros _. left. now exists s.
  - destruct s; [discriminate|]. now right.
  - destruct s; [discriminate|]. now right.
Qed.

Lemma signed_leb_zero (x : float) :
  signed false (Prim2SF x) -> (0 <=? x) = true.
Proof.
  rewrite FloatAxioms.leb_spec, F64Facts.SF_zero.
  destruct (Prim2SF x) as [s|s| |s m e]; cbn; try easy; now intros ->.
Qed.

Lemma binary_round_signed (s : bool) (m : positive) (e : Z) :
  signed s (binary_round prec emax s m e).
Proof.
  unfold binary_round.
  destruct (shl_align m e (fexp prec emax (Z.pos (digits2_pos m) + e)))
    as [mz ez].
  apply F64Facts.binary_round_aux_signed. lia.
Qed.

(** Adding a number that is not below zero to one with a clear sign bit
    gives a clear sign bit again: never NaN, never [-0]. *)
Lemma add_signed (a w : float) :
  signed false (Prim2SF a) -> (0 <=? w) = true ->
  signed false (Prim2SF (a + w)).
Proof.
  intros Ha Hw. rewrite add_spec. unfold SF64add, SFadd.
  destruct (leb_zero_inv w Hw) as [[t Ht]|Hs].
  - rewrite Ht. destruct (Prim2SF a) as [s|s| |s m e]; cbn in Ha; try easy.
    subst s. now destruct t.
  - destruct (Prim2SF a) as [s|s| |s m e], (Prim2SF w) as [t|t| |t n f];
      cbn in Ha, Hs; try easy; subst; try reflexivity.
    cbn [cond_Zopp]. apply binary_round_signed.
Qed.

(** Adding the zero of a rejected sample changes nothing. *)
Lemma add_zero_r (a : float) : signed false (Prim2SF a) -> a + 0 = a.
Proof.
  intros Ha. apply Prim2SF_inj. rewrite add_spec, F64Facts.SF_zero.
  destruct (Prim2SF a) as [s|s| |s m e]; cbn in Ha; try easy; now subst.
Qed.

(** A ratio at or above one passes every uniform draw that is at most one. *)
Lemma leb_min_uphill (r u : float) :
  (1 <=? r) = true -> (u <=? 1) = true -> (u <=? Py.min r 1) = true.
Proof.
  intros Hr Hu. unfold Py.min. destruct (1 <? r) eqn:Hlt; [exact Hu|].
  rewrite FloatAxioms.leb_spec in Hr. rewrite FloatAxioms.ltb_spec in Hlt.
  unfold SFleb in Hr. unfold SFltb in Hlt.
  destruct (SFcompare (Prim2SF 1) (Prim2SF r)) as [[]|] eqn:Hc;
    try discriminate.
  rewrite F64Facts.SFcompare_antisym in Hc.
  destruct (SFcompare (Prim2SF r) (Prim2SF 1)) as [[]|] eqn:Hc';
    try discriminate.
  apply F64Facts.SFcompare_eq_one in Hc'. apply Prim2SF_inj in Hc'.
  now subst r.
Qed.

End F64More.

(** ** Runs in legs, and what a run consumes *)

Section Legs.

Context {rng : Type}.
Variable uniform_rvs : rng -> float * rng.

Implicit Types (s : rng) (k : nat) (n m : Z) (x y u d : float)
  (samples acc : list float) (target proposal : rv_frozen rng).

(** Passes done one after the other. *)
Lemma iterate_add {S : Type} (body : S -> M rng S) (a b : nat) st s :
  iterate (a + b) body st s = bind (iterate a body st) (iterate b body) s.
Proof.
  revert st s. induction a as [|a IH]; intros st s; [reflexivity|].
  cbn [Nat.add iterate]. rewrite bind_assoc. apply bind_ext.
  intros st' s'. apply IH.
Qed.

(** What a result becomes when the samples so far are put in front. *)
Local Abbreviation prepend acc r :=
  (match r with
   | (Ok (x, out), s) => (Ok (x, acc ++ out), s)
   | (Raise e, s) => (Raise e, s)
   end).

Section Pass.

Variable propose : float -> M rng float.
Variable target : rv_frozen rng.

Local Abbreviation body := (iteration uniform_rvs propose target).

(** A pass looks at the state only, not at the samples collected. *)
Lemma iteration_acc x acc s :
  body (x, acc) s = prepend acc (body (x, []) s).
Proof.
  unfold iteration, bind, draw, call, ret.
  destruct (propose x s) as [[y|e] s1]; [|reflexivity].
  destruct (uniform_rvs s1) as [u s2].
  destruct (pdf target y) as [py|e]; [|reflexivity].
  destruct (pdf target x) as [px|e]; [|reflexivity].
  now destruct (u <=? Py.min (py / px) 1).
Qed.

Lemma iterate_acc k x acc s :
  iterate k body (x, acc) s = prepend acc (iterate k body (x, []) s).
Proof.
  revert x acc s. induction k as [|k IH]; intros x acc s.
  - cbn. unfold ret. now rewrite app_nil_r.
  - cbn [iterate]. unfold bind. rewrite (iteration_acc x acc).
    destruct (body (x, []) s) as [[[v out]|e] s1]; [|reflexivity].
    rewrite (IH v (acc ++ out)), (IH v out).
    destruct (iterate k body (v, []) s1) as [[[v' out']|e] s2];
      [|reflexivity].
    now rewrite app_assoc.
Qed.

(** A run of [n + m] passes is a run of [n] and then one of [m] from where
    the first stopped. *)
Lemma MH_with_two_legs initial n m s samples1 s1 :
  (0 <= n)%Z -> (0 <= m)%Z ->
  MH_with uniform_rvs propose initial target n s = (Ok samples1, s1) ->
  MH_with uniform_rvs propose initial target (n + m) s =
  match MH_with uniform_rvs propose (current initial samples1) target m s1 with
  | (Ok samples2, s2) => (Ok (samples1 ++ samples2), s2)
  | (Raise e, s2) => (Raise e, s2)
  end.
Proof.
  intros Hn Hm H. rewrite <- (Z2Nat.id n Hn) in H.
  apply MH_with_ok_inv in H as [H _].
  unfold MH_with, for_range.
  rewrite Z2Nat.inj_add by lia.
  unfold bind at 1. rewrite iterate_add, (bind_ok _ _ _ _ _ H), iterate_acc.
  unfold bind.
  destruct (iterate (Z.to_nat m) body (current initial samples1, []) s1)
    as [[[v out]|e] s2]; reflexivity.
Qed.

(** The first [k] samples of a run are the run of [k]. *)
Lemma MH_with_prefix initial n j s samples s' :
  (0 <= j <= n)%Z ->
  MH_with uniform_rvs propose initial target n s = (Ok samples, s') ->
  exists sk,
    MH_with uniform_rvs propose initial target j s
      = (Ok (firstn (Z.to_nat j) samples), sk).
Proof.
  intros Hj H.
  destruct (MH_with uniform_rvs propose initial target j s)
    as [[samples1|e] sk] eqn:Hrun.
  - exists sk. f_equal. f_equal.
    pose proof (MH_with_length _ _ _ _ _ _ _ _ Hrun) as Hlen.
    pose proof (MH_with_two_legs initial j (n - j) s samples1 sk
                  ltac:(lia) ltac:(lia) Hrun) as Hlegs.
    replace (j + (n - j))%Z with n in Hlegs by lia. rewrite H in Hlegs.
    destruct (MH_with uniform_rvs propose (current initial samples1) target
                (n - j) sk) as [[samples2|e] s2]; [|discriminate].
    inversion Hlegs; subst.
    rewrite <- Hlen, firstn_app, Nat.sub_diag, firstn_all. cbn.
    now rewrite app_nil_r.
  - rewrite <- (Z2Nat.id j) in Hrun by lia.
    rewrite (MH_with_raise_more _ _ _ _ _ n _ _ _ Hrun) in H by lia.
    discriminate.
Qed.

(** After [k] good passes, a proposal draw that raises ends the run. *)
Lemma MH_with_proposal_raises initial k n s samples sk e s1 :
  (Z.of_nat k < n)%Z ->
  MH_with uniform_rvs propose initial target (Z.of_nat k) s = (Ok samples, sk) ->
  propose (current initial samples) sk = (Raise e, s1) ->
  MH_with uniform_rvs propose initial target n s = (Raise e, s1).
Proof.
  intros Hk H Hp.
  apply (MH_with_raise_more _ _ _ _ (S k)); [|lia].
  replace (Z.of_nat (S k)) with (Z.of_nat k + 1)%Z by lia.
  rewrite (MH_with_succ _ _ _ _ _ _ _ _ H). apply bind_raise.
  now apply iteration_raise_proposal.
Qed.

End Pass.

End Legs.

(** ** Further properties of the sampler *)

Section MoreProperties.

Context {rng : Type}.
Variable uniform_rvs : rng -> float * rng.
Variable norm_rvs : float -> float -> M rng float.

Implicit Types (s : rng) (k : nat) (n m j : Z) (x y u d : float)
  (samples acc : list float) (target proposal : rv_frozen rng).

(** X1. A run can be cut in two legs.  If [n] iterations return
    [samples1], then [n + m] iterations return [samples1] followed by what
    [m] iterations return when started at the last state reached, with the
    random source as the first leg left it; if that second leg raises, so
    does the long run, with the same exception.  Both notebooks. *)
Theorem MH_two_legs initial target n m s samples1 s1 :
  (0 <= n)%Z -> (0 <= m)%Z ->
  (forall proposal,
     MH uniform_rvs initial target proposal n s = (Ok samples1, s1) ->
     MH uniform_rvs initial target proposal (n + m) s =
     match MH uniform_rvs (current initial samples1) target proposal m s1 with
     | (Ok samples2, s2) => (Ok (samples1 ++ samples2), s2)
     | (Raise e, s2) => (Raise e, s2)
     end) /\
  (forall proposal_std,
     MH_std uniform_rvs norm_rvs initial target proposal_std n s
       = (Ok samples1, s1) ->
     MH_std uniform_rvs norm_rvs initial target proposal_std (n + m) s =
     match MH_std uniform_rvs norm_rvs (current initial samples1) target
             proposal_std m s1 with
     | (Ok samples2, s2) => (Ok (samples1 ++ samples2), s2)
     | (Raise e, s2) => (Raise e, s2)
     end).
Proof.
  intros Hn Hm. split.
  - intros proposal H. rewrite !MH_unfold in *.
    now apply MH_with_two_legs.
  - intros proposal_std H. rewrite !MH_std_unfold in *.
    now apply MH_with_two_legs.
Qed.

(** X2. A shorter run is a prefix of a longer one.  If [n] iterations
    return [samples], then for [0 <= j <= n] the run of [j] iterations from
    the same random source returns the first [j] of them.  Both notebooks. *)
Theorem MH_prefix initial target n j s samples s' :
  (0 <= j <= n)%Z ->
  (forall proposal,
     MH uniform_rvs initial target proposal n s = (Ok samples, s') ->
     exists sj,
       MH uniform_rvs initial target proposal j s
         = (Ok (firstn (Z.to_nat j) samples), sj)) /\
  (forall proposal_std,
     MH_std uniform_rvs norm_rvs initial target proposal_std n s
       = (Ok samples, s') ->
     exists sj,
       MH_std uniform_rvs norm_rvs initial target proposal_std j s
         = (Ok (firstn (Z.to_nat j) samples), sj)).
Proof.
  intros Hj. split.
  - intros proposal H. rewrite MH_unfold in H.
    destruct (MH_with_prefix _ _ _ _ _ _ _ _ _ Hj H) as [sj Hrun].
    exists sj. now rewrite MH_unfold.
  - intros proposal_std H. rewrite MH_std_unfold in H.
    destruct (MH_with_prefix _ _ _ _ _ _ _ _ _ Hj H) as [sj Hrun].
    exists sj. now rewrite MH_std_unfold.
Qed.

(** X3. An exception of the proposal draw ends the run.  If, after [k < n]
    iterations that went through, [proposal_dist.rvs()] (or [norm.rvs] in
    the other notebook) raises [e], the run of [n] iterations raises [e],
    returns no samples, and leaves the random source as the failed draw
    left it: the uniform of that iteration is not drawn. *)
Theorem MH_proposal_error_propagates initial target k n s samples sk e s1 :
  (Z.of_nat k < n)%Z ->
  (forall proposal,
     MH uniform_rvs initial target proposal (Z.of_nat k) s = (Ok samples, sk) ->
     rvs proposal sk = (Raise e, s1) ->
     MH uniform_rvs initial target proposal n s = (Raise e, s1)) /\
  (forall proposal_std,
     MH_std uniform_rvs norm_rvs initial target proposal_std (Z.of_nat k) s
       = (Ok samples, sk) ->
     norm_rvs (current initial samples) proposal_std sk = (Raise e, s1) ->
     MH_std uniform_rvs norm_rvs initial target proposal_std n s
       = (Raise e, s1)).
Proof.
  intros Hk. split.
  - intros proposal H Hr. rewrite MH_unfold in *.
    apply (MH_with_proposal_raises _ _ _ _ _ _ _ _ _ _ _ Hk H).
    unfold offset_proposal. now apply bind_raise.
  - intros proposal_std H Hr. rewrite MH_std_unfold in *.
    now apply (MH_with_proposal_raises _ _ _ _ _ _ _ _ _ _ _ Hk H).
Qed.

(** X4. Uphill moves are always taken.  If the density ratio of the
    candidate to the current state compares at or above one and the uniform
    draw is at most one, the iteration accepts: the run of [k + 1]
    iterations appends the candidate.  Both notebooks. *)
Theorem MH_accepts_uphill initial target k s samples sk y s1 u s2 py px :
  let x := current initial samples in
  uniform_rvs s1 = (u, s2) ->
  pdf target y = Ok py ->
  pdf target x = Ok px ->
  (1 <=? py / px) = true ->
  (u <=? 1) = true ->
  (forall proposal d,
     MH uniform_rvs initial target proposal (Z.of_nat k) s = (Ok samples, sk) ->
     rvs proposal sk = (Ok d, s1) ->
     y = x + d ->
     MH uniform_rvs initial target proposal (Z.of_nat k + 1) s
       = (Ok (samples ++ [y]), s2)) /\
  (forall proposal_std,
     MH_std uniform_rvs norm_rvs initial target proposal_std (Z.of_nat k) s
       = (Ok samples, sk) ->
     norm_rvs x proposal_std sk = (Ok y, s1) ->
     MH_std uniform_rvs norm_rvs initial target proposal_std (Z.of_nat k + 1) s
       = (Ok (samples ++ [y]), s2)).
Proof.
  intros x Hu Hpy Hpx Hup Hle.
  pose proof (F64More.leb_min_uphill _ _ Hup Hle) as Hacc.
  split.
  - intros proposal d H Hd ->. rewrite MH_unfold in *.
    rewrite (MH_with_step _ _ _ _ _ _ _ _ _ _ _ _ py px H
               (offset_proposal_ok _ _ _ _ _ Hd) Hu Hpy Hpx).
    now rewrite Hacc.
  - intros proposal_std H Hy. rewrite MH_std_unfold in *.
    rewrite (MH_with_step _ _ _ _ _ _ _ _ _ _ _ _ py px H Hy Hu Hpy Hpx).
    now rewrite Hacc.
Qed.

(** The draws behind a run that returned, and the trajectory they fit. *)
Lemma iterate_walk target proposal k :
  forall x acc s x' out s',
    iterate k (iteration uniform_rvs (offset_proposal proposal) target)
      (x, acc) s = (Ok (x', out), s') ->
    exists l tr,
      draws uniform_rvs proposal k s = (Ok l, s') /\
      out = acc ++ tr /\ walk x l tr /\ length l = k.
Proof.
  induction k as [|k IH]; intros x acc s x' out s' H.
  - cbn in H. unfold ret in H. inversion H; subst.
    exists [], []. cbn. unfold ret. now rewrite app_nil_r.
  - cbn [iterate] in H. apply bind_inv in H as (st & s2 & Hb & H).
    apply iteration_inv in Hb
      as (v & y & s1 & u & py & px & -> & Hy & Hu & _ & _ & Hv).
    unfold offset_proposal in Hy.
    apply bind_inv in Hy as (d & s1' & Hd & Hy).
    unfold ret in Hy. inversion Hy; subst y s1'. clear Hy.
    apply IH in H as (l & tr & Hdr & -> & Hw & Hl).
    exists ((d, u) :: l), (v :: tr). split; [|split; [|split]].
    + cbn [draws]. rewrite (bind_ok _ _ _ _ _ Hd).
      unfold bind at 1. unfold draw. rewrite Hu.
      now rewrite (bind_ok _ _ _ _ _ Hdr).
    + now rewrite <- app_assoc.
    + cbn [walk]. split; [|exact Hw].
      destruct (u <=? Py.min (py / px) 1); subst v; auto.
    + cbn. now rewrite Hl.
Qed.

(** X5. What a run consumes, and where its samples can lie.  A run of [n]
    iterations that returns has drawn exactly [n] offsets and [n] uniforms,
    alternating, whatever the target and whatever was accepted: the random
    source ends where [draws] alone would leave it.  Every sample is its
    predecessor (the initial state for the first) or the predecessor plus
    the offset drawn in its iteration. *)
Theorem MH_consumes_draws_and_walks initial target proposal n s samples s' :
  MH uniform_rvs initial target proposal n s = (Ok samples, s') ->
  exists l,
    draws uniform_rvs proposal (Z.to_nat n) s = (Ok l, s') /\
    length l = Z.to_nat n /\
    walk initial l samples.
Proof.
  rewrite MH_unfold. unfold MH_with, for_range. intros H.
  apply bind_inv in H as ([x out] & s1 & Hi & H).
  unfold ret in H. cbn in H. inversion H; subst. clear H.
  apply iterate_walk in Hi as (l & tr & Hdr & -> & Hw & Hl).
  exists l. auto.
Qed.

(** A chain at a point of density zero, all candidates of density zero. *)
Lemma iterate_stuck target proposal x k :
  pdf target x = Ok 0 ->
  forall acc s l s',
    draws uniform_rvs proposal k s = (Ok l, s') ->
    Forall (fun du => pdf target (x + fst du) = Ok 0) l ->
    iterate k (iteration uniform_rvs (offset_proposal proposal) target)
      (x, acc) s = (Ok (x, acc ++ repeat x k), s').
Proof.
  intros Hx. induction k as [|k IH]; intros acc s l s' Hdr Hall.
  - cbn in Hdr. unfold ret in Hdr. inversion Hdr; subst.
    cbn. unfold ret. now rewrite app_nil_r.
  - apply draws_succ_inv in Hdr
      as (d & s1 & u & s2 & rest & Hd & Hu & Hrest & ->).
    inversion Hall as [|du tl Hy Hall']; subst. cbn [fst] in Hy.
    cbn [iterate].
    rewrite (bind_ok _ _ _ _ _
               (iteration_ok _ _ _ _ acc _ _ _ _ _ _ _
                  (offset_proposal_ok _ x _ _ _ Hd) Hu Hy Hx)).
    change (Py.min (0 / 0) 1) with nan. rewrite F64Facts.leb_nan_r.
    rewrite (IH _ _ _ _ Hrest Hall').
    cbn [repeat]. now rewrite <- app_assoc.
Qed.

(** X6. A chain started where the density is zero can stay there for good.
    If the target density is [0] at the initial state and at every
    candidate [initial + d] proposed, each ratio is [0/0], every proposal is
    rejected whatever the uniform draws, and [MH] returns [n] copies of the
    initial state. *)
Theorem MH_stuck_on_zero_density initial target proposal n s l s' :
  pdf target initial = Ok 0 ->
  draws uniform_rvs proposal (Z.to_nat n) s = (Ok l, s') ->
  Forall (fun du => pdf target (initial + fst du) = Ok 0) l ->
  MH uniform_rvs initial target proposal n s
    = (Ok (repeat initial (Z.to_nat n)), s').
Proof.
  intros Hx Hdr Hall. rewrite MH_unfold. unfold MH_with, for_range.
  now rewrite (bind_ok _ _ _ _ _
                 (iterate_stuck _ _ _ _ Hx [] _ _ _ Hdr Hall)).
Qed.

(** X7. The first notebook's [MH] never reads its count [N].  With no
    global [n] bound the call raises [NameError] before anything is drawn;
    with a global [n] it is the run of [n] iterations of the later
    notebook's [MH], so a sequence it returns has [n] elements (none for
    [n < 0]), whatever [N] was passed. *)
Theorem MH_N_runs_global_n initial target proposal N s :
  MH_N uniform_rvs None initial target proposal N s
    = (Raise Builtins.NameError_n, s) /\
  (forall n,
     MH_N uniform_rvs (Some n) initial target proposal N s
       = MH uniform_rvs initial target proposal n s) /\
  (forall n samples s',
     MH_N uniform_rvs (Some n) initial target proposal N s = (Ok samples, s') ->
     length samples = Z.to_nat n).
Proof.
  split; [reflexivity|]. split; [reflexivity|].
  intros n samples s' H.
  change (MH_N uniform_rvs (Some n) initial target proposal N s)
    with (MH uniform_rvs initial target proposal n s) in H.
  rewrite MH_unfold in H. now apply MH_with_length in H.
Qed.

End MoreProperties.

(** ** The importance weights *)

Section ImportanceFacts.

Variable mu : float.
Variable expon_pdf : float -> float.
Variable norm_pdf : float -> float -> float -> float.

Section Ratio.

Variables p q : float -> float.

Local Abbreviation w := (threshold_weight mu p q).
Local Abbreviation reaches := (fun x : float => mu <=? x).

(** The densities are within their contract where the weight uses them. *)
Local Abbreviation in_contract :=
  (fun x : float =>
     (mu <=? x) = true ->
     F64.is_density (p x) /\ F64.is_positive (q x) /\ F64.is_finite (q x)).

Lemma threshold_weight_leb_zero x : in_contract x -> (0 <=? w x) = true.
Proof.
  intros H. unfold threshold_weight.
  destruct (mu <=? x) eqn:Hr; [|reflexivity].
  destruct (H Hr) as (Hp & Hq & Hf). now apply F64Facts.div_density.
Qed.

Lemma fold_weights_signed l :
  Forall in_contract l ->
  forall acc, F64.signed false (Prim2SF acc) ->
    F64.signed false (Prim2SF (fold_left PrimFloat.add (map w l) acc)).
Proof.
  induction 1 as [|x l Hx _ IH]; intros acc Hacc; [exact Hacc|].
  cbn [map fold_left]. apply IH, F64More.add_signed; [exact Hacc|].
  now apply threshold_weight_leb_zero.
Qed.

Lemma fold_weights_drop l :
  Forall in_contract l ->
  forall acc, F64.signed false (Prim2SF acc) ->
    fold_left PrimFloat.add (map w l) acc =
    fold_left PrimFloat.add (map w (filter reaches l)) acc.
Proof.
  induction 1 as [|x l Hx _ IH]; intros acc Hacc; [reflexivity|].
  cbn [map fold_left filter]. cbv beta.
  pose proof (threshold_weight_leb_zero x Hx) as Hw.
  destruct (mu <=? x) eqn:Hr.
  - cbn [map fold_left]. apply IH. now apply F64More.add_signed.
  - assert (Hz : threshold_weight mu p q x = 0)
      by (unfold threshold_weight; now rewrite Hr).
    rewrite Hz, (F64More.add_zero_r _ Hacc). now apply IH.
Qed.

Lemma fold_weights_none l :
  Forall (fun x => (mu <=? x) = false) l ->
  fold_left PrimFloat.add (map w l) 0 = 0.
Proof.
  induction 1 as [|x l Hx _ IH]; [reflexivity|].
  cbn [map fold_left].
  assert (Hz : threshold_weight mu p q x = 0)
    by (unfold threshold_weight; now rewrite Hx).
  rewrite Hz. exact IH.
Qed.

End Ratio.

(** X8. Samples below the threshold do not touch the sum of weights.  When
    the two densities are within their contract at every sample that
    reaches [mu] (numerator finite and not below zero, denominator finite
    and above zero), [sum([importance(x) for x in qx_samples])] is, bit for
    bit, the sum over the samples that reach [mu] alone, and it is a number
    not below zero.  Both notebooks. *)
Theorem weight_sum_ignores_rejected (qx_samples : list float) :
  (Forall (fun x => (mu <=? x) = true ->
             F64.is_density (expon_pdf x) /\
             F64.is_positive (norm_pdf x mu 1) /\
             F64.is_finite (norm_pdf x mu 1)) qx_samples ->
   weight_sum mu expon_pdf norm_pdf qx_samples =
     weight_sum mu expon_pdf norm_pdf (filter (fun x => mu <=? x) qx_samples) /\
   (0 <=? weight_sum mu expon_pdf norm_pdf qx_samples) = true) /\
  (Forall (fun x => (mu <=? x) = true ->
             F64.is_density (norm_pdf x 0 1) /\
             F64.is_positive (norm_pdf x mu 1) /\
             F64.is_finite (norm_pdf x mu 1)) qx_samples ->
   weight_sum_tail mu norm_pdf qx_samples =
     weight_sum_tail mu norm_pdf (filter (fun x => mu <=? x) qx_samples) /\
   (0 <=? weight_sum_tail mu norm_pdf qx_samples) = true).
Proof.
  split; intros H; split.
  - apply (fold_weights_drop expon_pdf (fun x => norm_pdf x mu 1) _ H).
    reflexivity.
  - apply F64More.signed_leb_zero.
    apply (fold_weights_signed expon_pdf (fun x => norm_pdf x mu 1) _ H).
    reflexivity.
  - apply (fold_weights_drop (fun x => norm_pdf x 0 1)
             (fun x => norm_pdf x mu 1) _ H).
    reflexivity.
  - apply F64More.signed_leb_zero.
    apply (fold_weights_signed (fun x => norm_pdf x 0 1)
             (fun x => norm_pdf x mu 1) _ H).
    reflexivity.
Qed.

(** X9. When no sample reaches the threshold ([x >= mu] false for each, NaN
    samples included) the sum of weights is exactly zero, whatever the two
    density functions return at those samples.  Both notebooks. *)
Theorem weight_sum_zero_below_threshold (qx_samples : list float) :
  Forall (fun x => (mu <=? x) = false) qx_samples ->
  weight_sum mu expon_pdf norm_pdf qx_samples = 0 /\
  weight_sum_tail mu norm_pdf qx_samples = 0.
Proof.
  intros H. split.
  - apply (fold_weights_none expon_pdf (fun x => norm_pdf x mu 1) _ H).
  - apply (fold_weights_none (fun x => norm_pdf x 0 1)
             (fun x => norm_pdf x mu 1) _ H).
Qed.

End ImportanceFacts.

(** ** More runs on the scripted source *)

Module MoreRuns.
Import Mock.
Import Fixtures.

(** Two accepted moves on the Cauchy bell, 0 to 2 to 3, one leg each. *)
Lemma MH_two_legs_run :
  MH next 0 cauchy scripted 1 [2; 0.125; 1; 0.25] = (Ok [2], [1; 0.25]) /\
  MH next 0 cauchy scripted 2 [2; 0.125; 1; 0.25] = (Ok [2; 3], []).
Proof.
  split; [reflexivity|].
  exact (proj1 (@MH_two_legs tape next norm_rvs 0 cauchy 1 1
                  [2; 0.125; 1; 0.25] [2] [1; 0.25] ltac:(lia) ltac:(lia))
           scripted eq_refl).
Defined.

Lemma MH_prefix_run :
  exists sj, MH next 0 cauchy scripted 1 [2; 0.125; 1; 0.25] = (Ok [2], sj).
Proof.
  exact (proj1 (@MH_prefix tape next norm_rvs 0 cauchy 2 1
                  [2; 0.125; 1; 0.25] [2; 3] [] ltac:(lia))
           scripted eq_refl).
Defined.

(** The tape holds the draws of one iteration; the second finds it empty. *)
Lemma MH_proposal_error_propagates_run :
  MH next 0 cauchy finite_script 3 [2; 0.125] = (Raise tape_exhausted, []) /\
  MH_std next norm_rvs_script 0 cauchy 1 3 [2; 0.125]
    = (Raise tape_exhausted, []).
Proof.
  split.
  - exact (proj1 (@MH_proposal_error_propagates tape next norm_rvs_script
                    0 cauchy 1 3 [2; 0.125] [2] [] tape_exhausted []
                    ltac:(lia))
             finite_script eq_refl eq_refl).
  - exact (proj2 (@MH_proposal_error_propagates tape next norm_rvs_script
                    0 cauchy 1 3 [2; 0.125] [2] [] tape_exhausted []
                    ltac:(lia))
             1 eq_refl eq_refl).
Defined.

(** From 2 up to 1 on the Cauchy bell, with the largest uniform. *)
Lemma MH_accepts_uphill_run :
  (1 <=? 1 / 2 / (1 / 5)) = true /\
  MH next 2 cauchy scripted 1 [-1; 1] = (Ok [1], []).
Proof.
  split; [reflexivity|].
  exact (proj1
    (@MH_accepts_uphill tape next norm_rvs 2 cauchy 0
       [-1; 1] [] [-1; 1] 1 [1] 1 [] (1 / 2) (1 / 5)
       eq_refl eq_refl eq_refl eq_refl eq_refl)
    scripted (-1) eq_refl eq_refl eq_refl).
Defined.

Lemma MH_consumes_draws_and_walks_run :
  exists l,
    draws next scripted 2 [2; 0.125; 1; 1; 7] = (Ok l, [7]) /\
    length l = 2%nat /\ walk 0 l [2; 2].
Proof.
  exact (@MH_consumes_draws_and_walks tape next 0 cauchy scripted 2
           [2; 0.125; 1; 1; 7] [2; 2] [7] eq_refl).
Defined.

(** From 5 the candidates 6 and 3 are outside the box as well. *)
Lemma MH_stuck_on_zero_density_run :
  pdf box 5 = Ok 0 /\
  MH next 5 box scripted 2 [1; 0; -2; 0.5] = (Ok [5; 5], []).
Proof.
  split; [reflexivity|].
  apply (@MH_stuck_on_zero_density tape next 5 box scripted 2
           [1; 0; -2; 0.5] [(1, 0); (-2, 0.5)] []);
    [reflexivity|reflexivity|repeat constructor].
Defined.

Lemma MH_N_runs_global_n_run :
  MH_N next None 0 cauchy scripted 2 [2; 0.125] = (Raise Builtins.NameError_n, [2; 0.125]) /\
  length [2] = Z.to_nat 1.
Proof.
  split.
  - apply (@MH_N_runs_global_n tape next 0 cauchy scripted 2 [2; 0.125]).
  - apply (proj2 (proj2 (@MH_N_runs_global_n tape next 0 cauchy scripted 7
                           [2; 0.125])) 1%Z [2] []).
    reflexivity.
Defined.

(** Threshold 2: of the samples 1, 3, 1/2, 2 only 3 and 2 carry weight. *)
Lemma weight_sum_ignores_rejected_run :
  weight_sum 2 decay bell [1; 3; 0.5; 2] = weight_sum 2 decay bell [3; 2] /\
  (0 <=? weight_sum 2 decay bell [1; 3; 0.5; 2]) = true.
Proof.
  apply (proj1 (@weight_sum_ignores_rejected 2 decay bell [1; 3; 0.5; 2])).
  repeat constructor; intros _; repeat split; reflexivity.
Defined.

Lemma weight_sum_zero_below_threshold_run :
  weight_sum 2 decay bell [1; 0.5; nan] = 0 /\
  weight_sum_tail 2 bell [1; 0.5; nan] = 0.
Proof.
  apply (@weight_sum_zero_below_threshold 2 decay bell [1; 0.5; nan]).
  repeat constructor.
Defined.

End MoreRuns.
